(** * PeaceMaker web client: media services, socket session and notifications

    A shallow embedding of the client-side services of the PeaceMaker UI
    (VideoService, AudioService, WebSocketService and the two App components)
    together with the properties listed for them in the specification.

    Conventions.
    - A JavaScript object with mutable fields is a record; a method is a
      function from the record (and its arguments) to the new record, paired
      with the return value where the method returns one.
    - An optional property of an argument object ([settings.quality], ...) is an
      [option]: [None] stands for [undefined], whether the key is absent or
      explicitly undefined (the code cannot tell the two apart).
    - Platform events (socket opened or closed, timer fired, clock reads,
      decoded audio) are inputs of the model, supplied by the caller. *)

From Stdlib Require Import ZArith QArith Qminmax Lia Lqa Floats DecimalString.
From stdpp Require Import base option list strings gmap.

Local Open Scope Z_scope.

#[local] Set Warnings "-register-all".

(** ** JavaScript numbers for comparison-only code *)

Module JSNumber.

(** A double is NaN, an infinity or a finite value; every finite double is a
    rational, and [<], [Math.min] and [Math.max] never round, so the finite
    doubles are embedded in [Q]. The two zeros are both [Fin 0]: they are
    equal under [<] and [===] and both falsy. *)
Inductive number : Type :=
| NaN
| NegInf
| Fin (q : Q)
| PosInf.

(** ToBoolean on numbers: [0], [-0] and [NaN] are falsy. *)
Definition truthy (x : number) : bool :=
  match x with
  | NaN => false
  | Fin q => negb (Qeq_bool q 0)
  | NegInf | PosInf => true
  end.

(** [a < b]; false as soon as one side is NaN. *)
Definition lt (a b : number) : bool :=
  match a, b with
  | NaN, _ | _, NaN => false
  | NegInf, NegInf => false
  | NegInf, _ => true
  | _, NegInf => false
  | PosInf, _ => false
  | Fin _, PosInf => true
  | Fin x, Fin y => if Qlt_le_dec x y then true else false
  end.

Definition is_nan (x : number) : bool :=
  match x with NaN => true | _ => false end.

(** [Math.min(a, b)] and [Math.max(a, b)]: NaN if either argument is NaN,
    otherwise one of the two arguments. *)
Definition Math_min (a b : number) : number :=
  if is_nan a || is_nan b then NaN else if lt b a then b else a.

Definition Math_max (a b : number) : number :=
  if is_nan a || is_nan b then NaN else if lt a b then b else a.

(** The literals of the source, as the doubles they denote. *)
Definition lit_0_1 : Q := 3602879701896397 # 36028797018963968.
Definition lit_0_8 : Q := 3602879701896397 # 4503599627370496.
Definition lit_1_0 : Q := 1.

(** Numeric equality of two numbers ([===] on numbers). *)
Definition num_eq (a b : number) : Prop :=
  match a, b with
  | NegInf, NegInf | PosInf, PosInf => True
  | Fin x, Fin y => x == y
  | _, _ => False
  end.

End JSNumber.

(** ** VideoService (videoService.js) *)

Module VideoService.
Import JSNumber.

(** The offscreen canvas, as far as the service touches it. *)
Record canvas : Type := { canvas_width : number; canvas_height : number }.

(** The argument of [updateSettings]. *)
Record settings : Type := {
  s_frameRate : option number;
  s_quality : option number;
  s_width : option number;
  s_height : option number
}.

(** The fields of the service that [updateSettings] reads or writes.
    [frameInterval] holds the running capture timer, recorded by the frame
    rate it was started with (its period is [1000 / frameRate]). *)
Record t : Type := {
  canvas_ : option canvas;
  isStreaming : bool;
  frameInterval : option number;
  frameRate : number;
  quality : number;
  width : number;
  height : number
}.

(** [constructor()] *)
Definition constructor : t := {|
  canvas_ := None;
  isStreaming := false;
  frameInterval := None;
  frameRate := Fin 30;
  quality := Fin lit_0_8;
  width := Fin 640;
  height := Fin 480
|}.

(** [if (settings.f)]: the property is defined and truthy. *)
Definition present (o : option number) : bool :=
  match o with
  | Some v => truthy v
  | None => false
  end.

(** [settings.f] read as a value known to be defined. *)
Definition get (o : option number) (dflt : number) : number :=
  match o with
  | Some v => v
  | None => dflt
  end.

(** [startFrameCapture()]: clears a running timer and starts one at the
    current frame rate. *)
Definition startFrameCapture (v : t) : t :=
  {| canvas_ := canvas_ v; isStreaming := isStreaming v;
     frameInterval := Some (frameRate v);
     frameRate := frameRate v; quality := quality v;
     width := width v; height := height v |}.

Definition set_frameRate (x : number) (v : t) : t :=
  {| canvas_ := canvas_ v; isStreaming := isStreaming v;
     frameInterval := frameInterval v;
     frameRate := x; quality := quality v;
     width := width v; height := height v |}.

Definition set_quality (x : number) (v : t) : t :=
  {| canvas_ := canvas_ v; isStreaming := isStreaming v;
     frameInterval := frameInterval v;
     frameRate := frameRate v; quality := x;
     width := width v; height := height v |}.

Definition set_width (x : number) (v : t) : t :=
  {| canvas_ :=
       match canvas_ v with
       | Some c => Some {| canvas_width := x; canvas_height := canvas_height c |}
       | None => None
       end;
     isStreaming := isStreaming v;
     frameInterval := frameInterval v;
     frameRate := frameRate v; quality := quality v;
     width := x; height := height v |}.

Definition set_height (x : number) (v : t) : t :=
  {| canvas_ :=
       match canvas_ v with
       | Some c => Some {| canvas_width := canvas_width c; canvas_height := x |}
       | None => None
       end;
     isStreaming := isStreaming v;
     frameInterval := frameInterval v;
     frameRate := frameRate v; quality := quality v;
     width := width v; height := x |}.

(** [updateSettings(settings)] *)
Definition updateSettings (s : settings) (v : t) : t :=
  let v1 :=
    if present (s_frameRate s) then
      let v' := set_frameRate (get (s_frameRate s) NaN) v in
      if isStreaming v' then startFrameCapture v' else v'
    else v in
  let v2 :=
    if present (s_quality s) then
      set_quality
        (Math_max (Fin lit_0_1) (Math_min (Fin lit_1_0) (get (s_quality s) NaN))) v1
    else v1 in
  let v3 :=
    if present (s_width s) then set_width (get (s_width s) NaN) v2 else v2 in
  if present (s_height s) then set_height (get (s_height s) NaN) v3 else v3.

(** The object literal [{quality: x}]. *)
Definition only_quality (x : number) : settings :=
  {| s_frameRate := None; s_quality := Some x; s_width := None; s_height := None |}.

End VideoService.

(** ** AudioService (audioService.js) *)

Module AudioService.

(** Audio samples and the threshold are IEEE 754 doubles, with the rounding
    of every operation: the kernel's binary64 floats. *)
Local Open Scope float_scope.

(** The argument of [updateSettings]. Both spellings of the noise
    suppression key are fields, since the method reads both. *)
Record settings : Type := {
  s_sample_rate : option float;
  s_channels : option float;
  s_vad_threshold : option float;
  s_echo_cancellation : option bool;
  s_noise_suppression : option bool;
  s_noiseSuppression : option bool
}.

(** The fields of the service used by the settings methods and by the
    per-chunk gate. [noiseSuppression] can come to hold [undefined].
    [audioContext] and [onAudioData] record whether the field is set. *)
Record t : Type := {
  audioContext : bool;
  onAudioData : bool;
  sampleRate : float;
  channels : float;
  vadThreshold : float;
  echoCancellation : bool;
  noiseSuppression : option bool
}.

(** [constructor()] *)
Definition constructor : t := {|
  audioContext := false;
  onAudioData := false;
  sampleRate := 24000;
  channels := 1;
  vadThreshold := 0x1.999999999999ap-3 (* 0.2 *);
  echoCancellation := true;
  noiseSuppression := Some true
|}.

(** What [getSettings()] returns. *)
Record settings_view : Type := {
  sample_rate : float;
  channels_ : float;
  vad_threshold : float;
  echo_cancellation : bool;
  noise_suppression : option bool
}.

(** ToBoolean on a double. *)
Definition truthy (x : float) : bool :=
  negb (PrimFloat.is_zero x || PrimFloat.is_nan x).

(** [updateSettings(settings)] *)
Definition updateSettings (s : settings) (a : t) : t :=
  {| audioContext := audioContext a;
     onAudioData := onAudioData a;
     sampleRate :=
       match s_sample_rate s with
       | Some r => if truthy r then r else sampleRate a
       | None => sampleRate a
       end;
     channels := channels a;
     vadThreshold :=
       match s_vad_threshold s with
       | Some th => th
       | None => vadThreshold a
       end;
     echoCancellation :=
       match s_echo_cancellation s with
       | Some e => e
       | None => echoCancellation a
       end;
     noiseSuppression :=
       match s_noise_suppression s with
       | Some _ => s_noiseSuppression s
       | None => noiseSuppression a
       end |}.

(** [getSettings()] *)
Definition getSettings (a : t) : settings_view :=
  {| sample_rate := sampleRate a;
     channels_ := channels a;
     vad_threshold := vadThreshold a;
     echo_cancellation := echoCancellation a;
     noise_suppression := noiseSuppression a |}.

(** [initialize()] when the microphone is granted: the stream, the audio
    context, the analyser and the source node are created. *)
Definition initialize (a : t) : t :=
  {| audioContext := true;
     onAudioData := onAudioData a;
     sampleRate := sampleRate a;
     channels := channels a;
     vadThreshold := vadThreshold a;
     echoCancellation := echoCancellation a;
     noiseSuppression := noiseSuppression a |}.

(** [setAudioDataCallback(callback)], for a callback that is a function. *)
Definition setAudioDataCallback (a : t) : t :=
  {| audioContext := audioContext a;
     onAudioData := true;
     sampleRate := sampleRate a;
     channels := channels a;
     vadThreshold := vadThreshold a;
     echoCancellation := echoCancellation a;
     noiseSuppression := noiseSuppression a |}.

(** The loop of [detectVoiceActivity]: [sum += audioData[i] * audioData[i]]. *)
Fixpoint sum_squares (sum : float) (audioData : list float) : float :=
  match audioData with
  | [] => sum
  | x :: rest => sum_squares (sum + x * x) rest
  end.

(** [audioData.length] as a number; a typed array is shorter than 2^53. *)
Definition length_number (audioData : list float) : float :=
  PrimFloat.of_uint63 (Uint63.of_Z (Z.of_nat (length audioData))).

(** [Math.sqrt(sum / audioData.length)] *)
Definition rms (audioData : list float) : float :=
  PrimFloat.sqrt (sum_squares 0 audioData / length_number audioData).

(** [detectVoiceActivity(audioData)]: [rms > this.vadThreshold]. Nothing in
    the body can throw on a typed array, so the catch branch is not taken. *)
Definition detectVoiceActivity (a : t) (audioData : list float) : bool :=
  vadThreshold a <? rms audioData.

(** One call of the [onAudioData] callback: the samples and the metadata. *)
Record audio_callback : Type := {
  cb_audioData : list float;
  cb_sample_rate : float;
  cb_channels : float;
  cb_timestamp : string
}.

(** [processAudioChunk(audioBlob)]. [decoded] is the outcome of the two
    awaited platform calls: the samples of channel 0, or [None] when one of
    them rejects. [now] is [new Date().toISOString()]. The result lists the
    calls made to the callback. *)
Definition processAudioChunk (a : t) (decoded : option (list float)) (now : string)
  : list audio_callback :=
  if audioContext a then
    match decoded with
    | Some audioData =>
        if detectVoiceActivity a audioData then
          if onAudioData a then
            [ {| cb_audioData := audioData;
                 cb_sample_rate := sampleRate a;
                 cb_channels := channels a;
                 cb_timestamp := now |} ]
          else []
        else []
    | None => []
    end
  else [].

(** [new Float32Array(n)]: a silent buffer of [n] samples. *)
Definition silent (n : nat) : list float := repeat 0 n.

End AudioService.

(** ** JSON values and [JSON.stringify] *)

Module JSON.
Local Open Scope string_scope.

(** The values a message can hold. Numbers in messages are integers here.
    [BigInt] is the primitive [JSON.stringify] refuses (it throws a
    TypeError); [Undefined] is skipped in objects and printed as [null] in
    arrays. An object is its list of own properties in insertion order. *)
Inductive value : Type :=
| Undefined
| Null
| Bool (b : bool)
| Number (n : Z)
| BigInt (n : Z)
| Str (s : string)
| Array (items : list value)
| Object (props : list (string * value)).

Definition object : Type := list (string * value).

(** [o[k]] *)
Fixpoint get_prop (k : string) (o : object) : option value :=
  match o with
  | [] => None
  | (k', v) :: rest => if String.eqb k k' then Some v else get_prop k rest
  end.

(** [o[k] = v] on a fresh copy: an existing key keeps its place, a new key
    goes last. *)
Fixpoint set_prop (k : string) (v : value) (o : object) : object :=
  match o with
  | [] => [(k, v)]
  | (k', v') :: rest =>
      if String.eqb k k' then (k', v) :: rest else (k', v') :: set_prop k v rest
  end.

Definition dquote : string := String (Ascii.ascii_of_nat 34) EmptyString.
Definition backslash : string := String (Ascii.ascii_of_nat 92) EmptyString.

Definition hex_digit (n : nat) : string :=
  String (Ascii.ascii_of_nat (if Nat.ltb n 10 then 48 + n else 87 + n)) EmptyString.

(** One character of a quoted JSON string. *)
Definition escape_char (c : Ascii.ascii) : string :=
  let n := Ascii.nat_of_ascii c in
  if Nat.eqb n 34 then backslash ++ dquote
  else if Nat.eqb n 92 then backslash ++ backslash
  else if Nat.eqb n 8 then backslash ++ "b"
  else if Nat.eqb n 12 then backslash ++ "f"
  else if Nat.eqb n 10 then backslash ++ "n"
  else if Nat.eqb n 13 then backslash ++ "r"
  else if Nat.eqb n 9 then backslash ++ "t"
  else if Nat.ltb n 32 then
    backslash ++ "u00" ++ hex_digit (Nat.div n 16) ++ hex_digit (Nat.modulo n 16)
  else String c EmptyString.

Fixpoint escape (s : string) : string :=
  match s with
  | EmptyString => EmptyString
  | String c rest => escape_char c ++ escape rest
  end.

Definition quote (s : string) : string := dquote ++ escape s ++ dquote.

Definition decimal (n : Z) : string :=
  DecimalString.NilZero.string_of_int (Z.to_int n).

(** The three outcomes of serializing a value. *)
Inductive outcome : Type :=
| Text (s : string)
| Omitted
| Throws.

Definition array_items (rs : list outcome) : option (list string) :=
  foldr (fun r acc =>
           match r, acc with
           | Throws, _ | _, None => None
           | Text s, Some l => Some (s :: l)
           | Omitted, Some l => Some ("null" :: l)
           end) (Some []) rs.

Definition object_members (rs : list (string * outcome)) : option (list string) :=
  foldr (fun r acc =>
           match r, acc with
           | (_, Throws), _ | _, None => None
           | (k, Text s), Some l => Some ((quote k ++ ":" ++ s) :: l)
           | (_, Omitted), Some l => Some l
           end) (Some []) rs.

Fixpoint serialize (v : value) : outcome :=
  match v with
  | Undefined => Omitted
  | Null => Text "null"
  | Bool b => Text (if b then "true" else "false")
  | Number n => Text (decimal n)
  | BigInt _ => Throws
  | Str s => Text (quote s)
  | Array items =>
      match array_items (map serialize items) with
      | Some l => Text ("[" ++ String.concat "," l ++ "]")
      | None => Throws
      end
  | Object props =>
      match object_members (map (fun kv => (fst kv, serialize (snd kv))) props) with
      | Some l => Text ("{" ++ String.concat "," l ++ "}")
      | None => Throws
      end
  end.

(** [JSON.stringify(o)] for an object [o]: the text, or [None] when it
    throws. *)
Definition stringify (o : object) : option string :=
  match serialize (Object o) with
  | Text s => Some s
  | Omitted | Throws => None
  end.

End JSON.

(** ** WebSocketService (websocketService.js) *)

Module WebSocketService.
Import JSON.
Local Open Scope string_scope.

(** [WebSocket.readyState] *)
Inductive readyState : Type := CONNECTING | OPEN | CLOSING | CLOSED.

Definition readyState_eqb (a b : readyState) : bool :=
  match a, b with
  | CONNECTING, CONNECTING | OPEN, OPEN | CLOSING, CLOSING | CLOSED, CLOSED => true
  | _, _ => false
  end.

(** A platform socket: its URL, its state, and the frames handed to
    [ws.send], oldest first. *)
Record WebSocket : Type := {
  url : string;
  state : readyState;
  frames : list string
}.

(** The service together with the part of the platform it acts on.
    [sockets] holds every socket ever created, so that [ws] is an index
    into it and events of sockets the service has let go of can still
    arrive. [timeouts] are the pending [setTimeout] callbacks of
    [scheduleReconnect], by their delay; [scheduled] logs every delay ever
    passed to [setTimeout]. [notified] logs the calls of
    [notifyConnectionHandlers]; the registered handlers are taken not to call
    back into the service. *)
Record t : Type := {
  ws : option nat;
  sessionId : option string;
  reconnectAttempts : Z;
  maxReconnectAttempts : Z;
  reconnectDelay : Z;
  isConnecting : bool;
  autoReconnect : bool;
  sockets : list WebSocket;
  timeouts : list Z;
  scheduled : list Z;
  notified : list (string * option string)
}.

(** [constructor()], on a platform with no socket and no timer. *)
Definition constructor : t := {|
  ws := None;
  sessionId := None;
  reconnectAttempts := 0;
  maxReconnectAttempts := 5;
  reconnectDelay := 1000;
  isConnecting := false;
  autoReconnect := true;
  sockets := [];
  timeouts := [];
  scheduled := [];
  notified := []
|}.

Definition set_ws (x : option nat) (w : t) : t :=
  {| ws := x; sessionId := sessionId w; reconnectAttempts := reconnectAttempts w;
     maxReconnectAttempts := maxReconnectAttempts w; reconnectDelay := reconnectDelay w;
     isConnecting := isConnecting w; autoReconnect := autoReconnect w;
     sockets := sockets w; timeouts := timeouts w; scheduled := scheduled w;
     notified := notified w |}.

Definition set_sessionId (x : option string) (w : t) : t :=
  {| ws := ws w; sessionId := x; reconnectAttempts := reconnectAttempts w;
     maxReconnectAttempts := maxReconnectAttempts w; reconnectDelay := reconnectDelay w;
     isConnecting := isConnecting w; autoReconnect := autoReconnect w;
     sockets := sockets w; timeouts := timeouts w; scheduled := scheduled w;
     notified := notified w |}.

Definition set_reconnectAttempts (x : Z) (w : t) : t :=
  {| ws := ws w; sessionId := sessionId w; reconnectAttempts := x;
     maxReconnectAttempts := maxReconnectAttempts w; reconnectDelay := reconnectDelay w;
     isConnecting := isConnecting w; autoReconnect := autoReconnect w;
     sockets := sockets w; timeouts := timeouts w; scheduled := scheduled w;
     notified := notified w |}.

Definition set_isConnecting (x : bool) (w : t) : t :=
  {| ws := ws w; sessionId := sessionId w; reconnectAttempts := reconnectAttempts w;
     maxReconnectAttempts := maxReconnectAttempts w; reconnectDelay := reconnectDelay w;
     isConnecting := x; autoReconnect := autoReconnect w;
     sockets := sockets w; timeouts := timeouts w; scheduled := scheduled w;
     notified := notified w |}.

(** [setAutoReconnect(enabled)] *)
Definition setAutoReconnect (enabled : bool) (w : t) : t :=
  {| ws := ws w; sessionId := sessionId w; reconnectAttempts := reconnectAttempts w;
     maxReconnectAttempts := maxReconnectAttempts w; reconnectDelay := reconnectDelay w;
     isConnecting := isConnecting w; autoReconnect := enabled;
     sockets := sockets w; timeouts := timeouts w; scheduled := scheduled w;
     notified := notified w |}.

Definition set_sockets (x : list WebSocket) (w : t) : t :=
  {| ws := ws w; sessionId := sessionId w; reconnectAttempts := reconnectAttempts w;
     maxReconnectAttempts := maxReconnectAttempts w; reconnectDelay := reconnectDelay w;
     isConnecting := isConnecting w; autoReconnect := autoReconnect w;
     sockets := x; timeouts := timeouts w; scheduled := scheduled w;
     notified := notified w |}.

Definition set_timeouts (x : list Z) (w : t) : t :=
  {| ws := ws w; sessionId := sessionId w; reconnectAttempts := reconnectAttempts w;
     maxReconnectAttempts := maxReconnectAttempts w; reconnectDelay := reconnectDelay w;
     isConnecting := isConnecting w; autoReconnect := autoReconnect w;
     sockets := sockets w; timeouts := x; scheduled := scheduled w;
     notified := notified w |}.

(** [setTimeout(callback, delay)] with the callback of [scheduleReconnect]. *)
Definition setTimeout (delay : Z) (w : t) : t :=
  {| ws := ws w; sessionId := sessionId w; reconnectAttempts := reconnectAttempts w;
     maxReconnectAttempts := maxReconnectAttempts w; reconnectDelay := reconnectDelay w;
     isConnecting := isConnecting w; autoReconnect := autoReconnect w;
     sockets := sockets w; timeouts := timeouts w ++ [delay];
     scheduled := scheduled w ++ [delay];
     notified := notified w |}.

(** [notifyConnectionHandlers(status)]: each handler is called with the
    session id; a handler that throws is caught. *)
Definition notifyConnectionHandlers (status : string) (w : t) : t :=
  {| ws := ws w; sessionId := sessionId w; reconnectAttempts := reconnectAttempts w;
     maxReconnectAttempts := maxReconnectAttempts w; reconnectDelay := reconnectDelay w;
     isConnecting := isConnecting w; autoReconnect := autoReconnect w;
     sockets := sockets w; timeouts := timeouts w; scheduled := scheduled w;
     notified := notified w ++ [(status, sessionId w)] |}.

(** [this.ws?.readyState]: [None] when there is no socket. *)
Definition ws_readyState (w : t) : option readyState :=
  match ws w with
  | Some i => state <$> sockets w !! i
  | None => None
  end.

(** [this.ws?.readyState === WebSocket.OPEN] *)
Definition ws_is_open (w : t) : bool :=
  match ws_readyState w with
  | Some OPEN => true
  | _ => false
  end.

Definition with_state (s : readyState) (sock : WebSocket) : WebSocket :=
  {| url := url sock; state := s; frames := frames sock |}.

Definition with_frame (f : string) (sock : WebSocket) : WebSocket :=
  {| url := url sock; state := state sock; frames := frames sock ++ [f] |}.

(** [handleConnectionError(error)] *)
Definition handleConnectionError (w : t) : t :=
  notifyConnectionHandlers "error" w.

(** What [new WebSocket(url)] does: it returns a socket in state CONNECTING
    or throws (a URL the platform rejects). *)
Inductive ctor_outcome : Type := Created | Threw.

(** [sessionId || generated]: [null] and the empty string are falsy. *)
Definition or_generated (sessionId : option string) (generated : string) : string :=
  match sessionId with
  | Some s => if String.eqb s EmptyString then generated else s
  | None => generated
  end.

(** [connect(sessionId)]. [generated] is the id the template literal with
    [Date.now()] and [Math.random()] would produce. *)
Definition connect (sid : option string) (generated : string) (c : ctor_outcome)
    (w : t) : t :=
  if isConnecting w || ws_is_open w then w
  else
    let w1 := set_isConnecting true w in
    let id := or_generated sid generated in
    let w2 := set_sessionId (Some id) w1 in
    let wsUrl := "ws://localhost:8000/ws/" ++ id in
    match c with
    | Created =>
        let sock := {| url := wsUrl; state := CONNECTING; frames := [] |} in
        set_ws (Some (length (sockets w2))) (set_sockets (sockets w2 ++ [sock]) w2)
    | Threw =>
        handleConnectionError (set_isConnecting false w2)
    end.

(** The envelope [{...message, timestamp: now, session_id: this.sessionId}]. *)
Definition envelope (message : object) (now : string) (sid : option string) : object :=
  set_prop "session_id" (match sid with Some s => Str s | None => Null end)
    (set_prop "timestamp" (Str now) message).

(** [send(message)]: the returned flag and the new state. [now] is
    [new Date().toISOString()]. *)
Definition send (message : object) (now : string) (w : t) : bool * t :=
  match ws w with
  | Some i =>
      match sockets w !! i with
      | Some sock =>
          if readyState_eqb (state sock) OPEN then
            match stringify (envelope message now (sessionId w)) with
            | Some text =>
                (true, set_sockets (<[i := with_frame text sock]> (sockets w)) w)
            | None => (false, w)
            end
          else (false, w)
      | None => (false, w)
      end
  | None => (false, w)
  end.

(** [ping()] *)
Definition ping (now : string) (w : t) : bool * t :=
  send [("type", Str "ping")] now w.

(** [scheduleReconnect()]. [Math.pow(2, n)] is [2 ^ n] for the exponents
    that occur (the counter is at least 1 after the increment). *)
Definition scheduleReconnect (w : t) : t :=
  let w1 := set_reconnectAttempts (reconnectAttempts w + 1) w in
  let delay := reconnectDelay w1 * 2 ^ (reconnectAttempts w1 - 1) in
  setTimeout delay w1.

(** The callback given to [setTimeout] by [scheduleReconnect]. *)
Definition reconnect_callback (generated : string) (c : ctor_outcome) (w : t) : t :=
  if autoReconnect w && negb (ws_is_open w)
  then connect (sessionId w) generated c w
  else w.

(** [ws.onopen]. [t1] and [t2] are the two clock reads. *)
Definition onopen (t1 t2 : string) (w : t) : t :=
  let w1 := set_isConnecting false w in
  let w2 := set_reconnectAttempts 0 w1 in
  let w3 := notifyConnectionHandlers "connected" w2 in
  snd (send [("type", Str "connection");
             ("data", Object [("session_id",
                               match sessionId w3 with Some s => Str s | None => Null end);
                              ("client_type", Str "web_ui");
                              ("timestamp", Str t1)])] t2 w3).

(** [ws.onclose] *)
Definition onclose (w : t) : t :=
  let w1 := set_isConnecting false w in
  let w2 := notifyConnectionHandlers "disconnected" w1 in
  if autoReconnect w2 && (reconnectAttempts w2 <? maxReconnectAttempts w2)%Z
  then scheduleReconnect w2
  else w2.

(** [ws.onerror] *)
Definition onerror (w : t) : t := handleConnectionError w.

(** [ws.close(code, reason)] on socket [i]: an open or connecting socket
    starts closing. *)
Definition close_socket (i : nat) (w : t) : t :=
  match sockets w !! i with
  | Some sock =>
      match state sock with
      | CONNECTING | OPEN => set_sockets (<[i := with_state CLOSING sock]> (sockets w)) w
      | CLOSING | CLOSED => w
      end
  | None => w
  end.

(** [disconnect()] *)
Definition disconnect (w : t) : t :=
  let w1 := setAutoReconnect false w in
  let w2 :=
    match ws w1 with
    | Some i => set_ws None (close_socket i w1)
    | None => w1
    end in
  notifyConnectionHandlers "disconnected" (set_isConnecting false w2).

(** The platform marks socket [i] with a new state before it fires the
    corresponding event. *)
Definition platform_state (i : nat) (s : readyState) (w : t) : t :=
  set_sockets (alter (with_state s) i (sockets w)) w.

(** Everything that can happen to the service: calls of its methods and
    platform events. A socket event names the socket it is fired on; the
    handlers themselves only refer to the service. A message event only
    runs a registered message handler. *)
Inductive event : Type :=
| Call_connect (sid : option string) (generated : string) (c : ctor_outcome)
| Call_send (message : object) (now : string)
| Call_disconnect
| Call_setAutoReconnect (enabled : bool)
| Socket_open (i : nat) (t1 t2 : string)
| Socket_close (i : nat)
| Socket_error (i : nat)
| Socket_message (i : nat) (data : string)
| Timeout (k : nat) (generated : string) (c : ctor_outcome).

Definition step (e : event) (w : t) : t :=
  match e with
  | Call_connect sid generated c => connect sid generated c w
  | Call_send message now => snd (send message now w)
  | Call_disconnect => disconnect w
  | Call_setAutoReconnect enabled => setAutoReconnect enabled w
  | Socket_open i t1 t2 => onopen t1 t2 (platform_state i OPEN w)
  | Socket_close i => onclose (platform_state i CLOSED w)
  | Socket_error i => onerror w
  | Socket_message i data => w
  | Timeout k generated c =>
      match timeouts w !! k with
      | Some _ => reconnect_callback generated c (set_timeouts (delete k (timeouts w)) w)
      | None => w
      end
  end.

Definition run (es : list event) (w : t) : t := foldl (fun w e => step e w) w es.

Definition is_open_event (e : event) : bool :=
  match e with Socket_open _ _ _ => true | _ => false end.

Definition is_connect_call (e : event) : bool :=
  match e with Call_connect _ _ _ => true | _ => false end.

Definition enables_autoReconnect (e : event) : bool :=
  match e with Call_setAutoReconnect true => true | _ => false end.

End WebSocketService.

(** ** App with the notification list (the App component that imports the
     three services) *)

Module AppNotifications.
Local Open Scope string_scope.

(** A notification object [{id, message, type, timestamp}]. *)
Record notification : Type := {
  id : Z;
  message : string;
  type : string;
  timestamp : Z
}.

(** The values that meet in a comparison of this component: a number, or a
    notification object, known by the address it was allocated at. *)
Inductive jsval : Type :=
| VNumber (n : Z)
| VObject (addr : nat).

(** [a !== b]: two numbers differ by value, two objects by identity, and
    values of different types always differ. *)
Definition strict_neq (a b : jsval) : bool :=
  match a, b with
  | VNumber x, VNumber y => negb (x =? y)%Z
  | VObject x, VObject y => negb (Nat.eqb x y)
  | VNumber _, VObject _ | VObject _, VNumber _ => true
  end.

(** The [notifications] state, each object with its address, and the
    pending removal timers as (delay, id). *)
Record t : Type := {
  notifications : list (nat * notification);
  next_addr : nat;
  timers : list (Z * Z)
}.

Definition initial : t := {| notifications := []; next_addr := 0; timers := [] |}.

(** [removeNotification(id)]:
    [setNotifications(prev => prev.filter(n => n !== id))]. *)
Definition removeNotification (i : Z) (st : t) : t :=
  {| notifications :=
       List.filter (fun n => strict_neq (VObject (fst n)) (VNumber i)) (notifications st);
     next_addr := next_addr st;
     timers := timers st |}.

(** [addNotification(message, type = 'error', duration = 8000)]. [None]
    for an argument is [undefined], which selects the default. [now] is
    [Date.now()] and [date] is [new Date()]. *)
Definition addNotification (msg : string) (ty : option string) (duration : option Z)
    (now date : Z) (st : t) : t :=
  let ty := default "error" ty in
  let duration := default 8000%Z duration in
  if negb (String.eqb ty "error") then st
  else
    let n := {| id := now; message := msg; type := ty; timestamp := date |} in
    {| notifications := notifications st ++ [(next_addr st, n)];
       next_addr := S (next_addr st);
       timers := timers st ++ [(duration, now)] |}.

(** The removal timer at position [k] fires. *)
Definition timer_fires (k : nat) (st : t) : t :=
  match timers st !! k with
  | Some (_, i) =>
      removeNotification i
        {| notifications := notifications st;
           next_addr := next_addr st;
           timers := delete k (timers st) |}
  | None => st
  end.

(** The user clicks the notification shown at position [j]
    ([onClick={() => removeNotification(notification.id)}]). *)
Definition click (j : nat) (st : t) : t :=
  match notifications st !! j with
  | Some (_, n) => removeNotification (id n) st
  | None => st
  end.

(** The [id] fields of the notifications in the list. *)
Definition ids (st : t) : list Z := map (fun n => id (snd n)) (notifications st).

End AppNotifications.

(** ** App with the mute button (ui/src/App.js) *)

Module App.
Import JSON.
Local Open Scope string_scope.

(** An inbound message, as far as the mute cases read it. *)
Record message : Type := {
  m_type : string;
  m_status : option string
}.

(** [isMuted], the session id, whether [websocketRef.current] is a socket in
    state OPEN, and the frames given to its [send]. *)
Record t : Type := {
  isMuted : bool;
  currentSessionId : option string;
  socket_open : bool;
  outbox : list string
}.

Definition initial (open_ : bool) : t :=
  {| isMuted := false; currentSessionId := None; socket_open := open_; outbox := [] |}.

Definition setIsMuted (b : bool) (st : t) : t :=
  {| isMuted := b; currentSessionId := currentSessionId st;
     socket_open := socket_open st; outbox := outbox st |}.

(** [sendWebSocketMessage(type, data = {})], called without [data]. [None]
    when [JSON.stringify] throws. *)
Definition sendWebSocketMessage (ty : string) (st : t) : option t :=
  if socket_open st then
    match stringify [("type", Str ty);
                     ("data", Object []);
                     ("session_id",
                      match currentSessionId st with Some s => Str s | None => Null end)] with
    | Some text =>
        Some {| isMuted := isMuted st; currentSessionId := currentSessionId st;
                socket_open := socket_open st; outbox := outbox st ++ [text] |}
    | None => None
    end
  else Some st.

(** [toggleMute()]; an exception in the body is caught and logged. *)
Definition toggleMute (st : t) : t :=
  if isMuted st then
    match sendWebSocketMessage "unmute" st with
    | Some st' => setIsMuted false st'
    | None => st
    end
  else
    match sendWebSocketMessage "mute" st with
    | Some st' => setIsMuted true st'
    | None => st
    end.

(** [message.status === 'success'] *)
Definition is_success (m : message) : bool :=
  match m_status m with
  | Some s => String.eqb s "success"
  | None => false
  end.

(** [handleWebSocketMessage(message)]. The other cases of the switch set
    state that is not part of [t]. *)
Definition handleWebSocketMessage (m : message) (st : t) : t :=
  if String.eqb (m_type m) "mute_response" then
    if is_success m then st else setIsMuted false st
  else if String.eqb (m_type m) "unmute_response" then
    if is_success m then st else setIsMuted true st
  else st.

(** A click on the mute button, or an inbound message. *)
Inductive event : Type :=
| Click
| Receive (m : message).

Definition step (e : event) (st : t) : t :=
  match e with
  | Click => toggleMute st
  | Receive m => handleWebSocketMessage m st
  end.

Definition run (es : list event) (st : t) : t := foldl (fun st e => step e st) st es.

Definition mute_response (status : string) : message :=
  {| m_type := "mute_response"; m_status := Some status |}.

Definition unmute_response (status : string) : message :=
  {| m_type := "unmute_response"; m_status := Some status |}.

(** The server's last acknowledged mute state, read off the responses in a
    trace: a [mute_response] with status success acknowledges "muted", an
    [unmute_response] with status success acknowledges "unmuted", and any
    other message acknowledges nothing. [s0] is the state before the first
    response. *)
Definition acknowledged (s0 : bool) (es : list event) : bool :=
  foldl (fun s e =>
           match e with
           | Receive m =>
               if is_success m then
                 if String.eqb (m_type m) "mute_response" then true
                 else if String.eqb (m_type m) "unmute_response" then false
                 else s
               else s
           | Click => s
           end) s0 es.

(** The number of mute and unmute responses in a trace. *)
Definition responses (es : list event) : nat :=
  length (List.filter (fun e =>
                    match e with
                    | Receive m =>
                        String.eqb (m_type m) "mute_response"
                        || String.eqb (m_type m) "unmute_response"
                    | Click => false
                    end) es).

(** A quiescent point: every request sent has been answered. *)
Definition quiescent (es : list event) (st : t) : bool :=
  Nat.eqb (length (outbox st)) (responses es).

(** A trace in which every click is answered, by the response to the
    request it sent, before the next click: [d] is the displayed state when
    the trace starts. *)
Fixpoint answered_in_turn (d : bool) (es : list event) : bool :=
  match es with
  | [] => true
  | Click :: Receive m :: rest =>
      String.eqb (m_type m) (if d then "unmute_response" else "mute_response")
      && answered_in_turn (if is_success m then negb d else d) rest
  | _ => false
  end.

End App.

(** ** Error handling utilities (utils/errorHandler.js) *)

Module ErrorHandler.
Local Open Scope string_scope.

(** The values of [ErrorTypes]. *)
Inductive ErrorTypes : Type := WEBSOCKET | API | RECORDING | VIDEO | AUDIO | GENERAL.

(** The error codes: the keys of the message tables and the codes that
    [handleError] assigns. *)
Inductive ErrorCode : Type :=
| CONNECTION_FAILED | MESSAGE_PARSE | DISCONNECTED
| REQUEST_FAILED | TIMEOUT | UNAUTHORIZED
| START_FAILED | STOP_FAILED | PERMISSION_DENIED
| SETTINGS_FAILED | DEVICE_NOT_FOUND
| UNKNOWN | NETWORK
| TYPE_ERROR.

(** [ErrorMessages[errorType][errorCode]]; [None] is [undefined]. *)
Definition ErrorMessages (ty : ErrorTypes) (code : ErrorCode) : option string :=
  match ty, code with
  | WEBSOCKET, CONNECTION_FAILED =>
      Some "🔌 Connection failed - We're still developing the real-time features!"
  | WEBSOCKET, MESSAGE_PARSE =>
      Some "📨 Message error - We're still developing the data processing!"
  | WEBSOCKET, DISCONNECTED =>
      Some "🔌 Disconnected - We're still developing the connection stability!"
  | API, REQUEST_FAILED =>
      Some "🌐 API error - We're still developing the backend integration!"
  | API, TIMEOUT =>
      Some "⏰ Request timeout - We're still developing the server performance!"
  | API, UNAUTHORIZED =>
      Some "🔐 Access denied - We're still developing the authentication!"
  | RECORDING, START_FAILED =>
      Some "🎙️ Recording failed - We're still developing the audio capture!"
  | RECORDING, STOP_FAILED =>
      Some "🛑 Stop failed - We're still developing the audio control!"
  | RECORDING, PERMISSION_DENIED =>
      Some "🚫 Microphone access denied - We're still developing the permissions!"
  | VIDEO, START_FAILED =>
      Some "📹 Video failed - We're still developing the camera integration!"
  | VIDEO, STOP_FAILED =>
      Some "🛑 Video stop failed - We're still developing the video control!"
  | VIDEO, PERMISSION_DENIED =>
      Some "🚫 Camera access denied - We're still developing the permissions!"
  | AUDIO, SETTINGS_FAILED =>
      Some "⚙️ Audio settings failed - We're still developing the audio processing!"
  | AUDIO, DEVICE_NOT_FOUND =>
      Some "🔍 Audio device not found - We're still developing the device detection!"
  | GENERAL, UNKNOWN =>
      Some "❓ Unknown error - We're still developing this feature!"
  | GENERAL, NETWORK =>
      Some "🌐 Network error - We're still developing the connection handling!"
  | GENERAL, TIMEOUT =>
      Some "⏰ Operation timeout - We're still developing the performance!"
  | _, _ => None
  end.

(** ToBoolean on a string or [undefined]. *)
Definition truthy_string (o : option string) : bool :=
  match o with
  | Some s => negb (String.eqb s EmptyString)
  | None => false
  end.

(** [ErrorMessages[ErrorTypes.GENERAL].UNKNOWN] *)
Definition general_unknown : string :=
  default EmptyString (ErrorMessages GENERAL UNKNOWN).

(** [getErrorMessage(errorType, errorCode, fallbackMessage = null)]. With
    these argument types nothing in the body throws. *)
Definition getErrorMessage (ty : ErrorTypes) (code : ErrorCode)
    (fallbackMessage : option string) : string :=
  if truthy_string (ErrorMessages ty code)
  then default EmptyString (ErrorMessages ty code)
  else if truthy_string fallbackMessage
       then default EmptyString fallbackMessage
       else general_unknown.

(** [s.includes(needle)] *)
Fixpoint includes (needle s : string) : bool :=
  if String.prefix needle s then true
  else match s with
       | EmptyString => false
       | String _ rest => includes needle rest
       end.

(** An error value, as far as the utilities read it. [None] is
    [undefined]. *)
Record error : Type := {
  name : option string;
  message : option string
}.

(** [error.name === n] *)
Definition name_is (n : string) (e : error) : bool :=
  match name e with
  | Some s => String.eqb s n
  | None => false
  end.

(** [error.message?.includes(needle)]: [None] is [undefined]. *)
Definition message_includes (needle : string) (e : error) : option bool :=
  includes needle <$> message e.

(** ToBoolean on a boolean or [undefined]. *)
Definition truthy_flag (o : option bool) : bool := default false o.

(** [a || b] on booleans or [undefined]. *)
Definition or_else (a b : option bool) : option bool :=
  if truthy_flag a then a else b.

(** What [handleError] returns. *)
Record error_info : Type := {
  userMessage : string;
  technicalError : error;
  context : string;
  errorType : ErrorTypes;
  errorCode : ErrorCode;
  timestamp : Z
}.

(** The chain of tests of [handleError] that picks the code. *)
Definition classify (e : error) : ErrorCode :=
  if name_is "TypeError" e then TYPE_ERROR
  else if name_is "NetworkError" e then NETWORK
  else if truthy_flag (message_includes "timeout" e) then TIMEOUT
  else if truthy_flag (message_includes "permission" e) then PERMISSION_DENIED
  else if truthy_flag (message_includes "connection" e) then CONNECTION_FAILED
  else UNKNOWN.

(** [handleError(error, context = 'Operation', errorType = ErrorTypes.GENERAL)].
    [None] for an argument selects its default; [date] is [new Date()]. *)
Definition handleError (e : error) (ctx : option string) (ty : option ErrorTypes)
    (date : Z) : error_info :=
  let ty := default GENERAL ty in
  let code := classify e in
  {| userMessage := getErrorMessage ty code None;
     technicalError := e;
     context := default "Operation" ctx;
     errorType := ty;
     errorCode := code;
     timestamp := date |}.

(** [isNetworkError(error)] *)
Definition isNetworkError (e : error) : option bool :=
  or_else (or_else (or_else (Some (name_is "NetworkError" e))
                      (message_includes "network" e))
             (message_includes "fetch" e))
    (message_includes "connection" e).

(** [isPermissionError(error)] *)
Definition isPermissionError (e : error) : option bool :=
  or_else (or_else (Some (name_is "NotAllowedError" e))
             (message_includes "permission" e))
    (message_includes "denied" e).

(** [isTimeoutError(error)] *)
Definition isTimeoutError (e : error) : option bool :=
  or_else (or_else (Some (name_is "TimeoutError" e))
             (message_includes "timeout" e))
    (message_includes "timed out" e).

(** The table [suggestions] of [getRecoverySuggestion]. *)
Definition suggestions (ty : ErrorTypes) (code : ErrorCode) : option string :=
  match ty, code with
  | WEBSOCKET, CONNECTION_FAILED =>
      Some "Try refreshing the page or check your internet connection"
  | WEBSOCKET, MESSAGE_PARSE => Some "Try refreshing the page to reset the connection"
  | WEBSOCKET, DISCONNECTED => Some "The connection will automatically retry"
  | API, REQUEST_FAILED => Some "Check if the backend server is running"
  | API, TIMEOUT => Some "Try again in a few moments"
  | API, UNAUTHORIZED => Some "Check your authentication settings"
  | RECORDING, START_FAILED => Some "Check microphone permissions and try again"
  | RECORDING, STOP_FAILED => Some "The recording should stop automatically"
  | RECORDING, PERMISSION_DENIED => Some "Allow microphone access in your browser settings"
  | VIDEO, START_FAILED => Some "Check camera permissions and try again"
  | VIDEO, STOP_FAILED => Some "The video should stop automatically"
  | VIDEO, PERMISSION_DENIED => Some "Allow camera access in your browser settings"
  | _, _ => None
  end.

(** [getRecoverySuggestion(errorType, errorCode)] *)
Definition getRecoverySuggestion (ty : ErrorTypes) (code : ErrorCode) : string :=
  if truthy_string (suggestions ty code)
  then default EmptyString (suggestions ty code)
  else "Please try again or contact support".

End ErrorHandler.

(** ** WebSocketService: the envelope builders and the status getters *)

Module WebSocketAPI.
Import JSON WebSocketService.
Local Open Scope string_scope.

(** ToBoolean on a message value. *)
Definition truthy (v : value) : bool :=
  match v with
  | Undefined | Null => false
  | Bool b => b
  | Number n | BigInt n => negb (n =? 0)%Z
  | Str s => negb (String.eqb s EmptyString)
  | Array _ | Object _ => true
  end.

(** [o[k] || d] *)
Definition or_default (k : string) (o : object) (d : value) : value :=
  match get_prop k o with
  | Some v => if truthy v then v else d
  | None => d
  end.

(** The object literal [{...base, ...o}] for the properties [base] written
    before the spread: the own properties of [o] are set in order. *)
Definition spread (base o : object) : object :=
  foldl (fun acc kv => set_prop (fst kv) (snd kv) acc) base o.

(** The [data.metadata] object built by [sendAudio]; [t1] is its clock
    read. *)
Definition audio_metadata (metadata : object) (t1 : string) : object :=
  spread [("sample_rate", or_default "sample_rate" metadata (Number 24000));
          ("channels", or_default "channels" metadata (Number 1));
          ("timestamp", Str t1)] metadata.

(** [sendAudio(audioData, metadata = {})] *)
Definition sendAudio (audioData : value) (metadata : object) (t1 now : string) (w : t)
  : bool * t :=
  send [("type", Str "audio_data");
        ("data", Object [("audio", audioData);
                         ("metadata", Object (audio_metadata metadata t1))])] now w.

(** The [data.metadata] object built by [sendVideoFrame]. *)
Definition video_metadata (metadata : object) (t1 : string) : object :=
  spread [("width", or_default "width" metadata (Number 640));
          ("height", or_default "height" metadata (Number 480));
          ("timestamp", Str t1)] metadata.

(** [sendVideoFrame(videoFrame, metadata = {})] *)
Definition sendVideoFrame (videoFrame : value) (metadata : object) (t1 now : string)
    (w : t) : bool * t :=
  send [("type", Str "video_frame");
        ("data", Object [("frame", videoFrame);
                         ("metadata", Object (video_metadata metadata t1))])] now w.

(** [sendTranscription(text, confidence = 1.0, metadata = {})]; [None] for
    [confidence] is [undefined]. *)
Definition sendTranscription (text : value) (confidence : option value) (metadata : object)
    (t1 now : string) (w : t) : bool * t :=
  send [("type", Str "transcription");
        ("data", Object (spread [("text", text);
                                 ("confidence", default (Number 1) confidence);
                                 ("timestamp", Str t1)] metadata))] now w.

(** [sendAudioSettings(settings)] *)
Definition sendAudioSettings (settings : value) (now : string) (w : t) : bool * t :=
  send [("type", Str "audio_settings"); ("data", settings)] now w.

(** The [data] object built by [sendControl]. *)
Definition control_data (command : string) (data : object) (t1 : string) : object :=
  spread [("command", Str command); ("timestamp", Str t1)] data.

(** [sendControl(command, data = {})] *)
Definition sendControl (command : string) (data : object) (t1 now : string) (w : t)
  : bool * t :=
  send [("type", Str "control"); ("data", Object (control_data command data t1))] now w.

(** [requestStatus()] *)
Definition requestStatus (now : string) (w : t) : bool * t :=
  send [("type", Str "get_status")] now w.

(** [startRecording(settings = {})] *)
Definition startRecording (settings : object) (t1 now : string) (w : t) : bool * t :=
  sendControl "start_recording" settings t1 now w.

(** [stopRecording()] *)
Definition stopRecording (t1 now : string) (w : t) : bool * t :=
  sendControl "stop_recording" [] t1 now w.

(** [startAISession(settings = {})] *)
Definition startAISession (settings : object) (t1 now : string) (w : t) : bool * t :=
  sendControl "start_ai_session" settings t1 now w.

(** [stopAISession()] *)
Definition stopAISession (t1 now : string) (w : t) : bool * t :=
  sendControl "stop_ai_session" [] t1 now w.

(** [getConnectionStatus()]. A socket always has one of the four states; the
    default case stands for an index with no socket behind it. *)
Definition getConnectionStatus (w : t) : string :=
  match ws w with
  | None => "disconnected"
  | Some i =>
      match sockets w !! i with
      | Some sock =>
          match state sock with
          | CONNECTING => "connecting"
          | OPEN => "connected"
          | CLOSING => "closing"
          | CLOSED => "disconnected"
          end
      | None => "unknown"
      end
  end.

(** [isConnected()] *)
Definition isConnected (w : t) : bool :=
  match ws_readyState w with
  | Some s => readyState_eqb s OPEN
  | None => false
  end.

(** [getSessionId()] *)
Definition getSessionId (w : t) : option string := sessionId w.

End WebSocketAPI.

(** ** WebSocketService: the handler registries *)

Module WebSocketHandlers.

(** A handler is a function, known by its identity. [messageHandlers] and
    [connectionHandlers] are the two [Map]s of the service. *)
Record t : Type := {
  messageHandlers : gmap string nat;
  connectionHandlers : gmap string (list nat)
}.

(** The two empty maps of [constructor()]. *)
Definition constructor : t := {| messageHandlers := ∅; connectionHandlers := ∅ |}.

(** [onMessage(type, handler)] *)
Definition onMessage (ty : string) (handler : nat) (r : t) : t :=
  {| messageHandlers := <[ty := handler]> (messageHandlers r);
     connectionHandlers := connectionHandlers r |}.

(** [removeMessageHandler(type)] *)
Definition removeMessageHandler (ty : string) (r : t) : t :=
  {| messageHandlers := delete ty (messageHandlers r);
     connectionHandlers := connectionHandlers r |}.

(** An inbound message: its [type], when it is a string, and its [data]. *)
Record message : Type := {
  msg_type : option string;
  msg_data : JSON.value
}.

(** [handleMessage(message)]: the handler called and its argument, if any. A
    handler that throws is caught. *)
Definition handleMessage (m : message) (r : t) : option (nat * JSON.value) :=
  match msg_type m with
  | Some ty =>
      match messageHandlers r !! ty with
      | Some handler => Some (handler, msg_data m)
      | None => None
      end
  | None => None
  end.

(** [onConnection(type, handler)] *)
Definition onConnection (ty : string) (handler : nat) (r : t) : t :=
  {| messageHandlers := messageHandlers r;
     connectionHandlers :=
       <[ty := default [] (connectionHandlers r !! ty) ++ [handler]]> (connectionHandlers r) |}.

(** [handlers.indexOf(handler)] followed by [handlers.splice(index, 1)] when
    the index is found. *)
Fixpoint remove_first (handler : nat) (handlers : list nat) : list nat :=
  match handlers with
  | [] => []
  | h :: rest => if Nat.eqb h handler then rest else h :: remove_first handler rest
  end.

(** [removeConnectionHandler(type, handler)] *)
Definition removeConnectionHandler (ty : string) (handler : nat) (r : t) : t :=
  {| messageHandlers := messageHandlers r;
     connectionHandlers :=
       match connectionHandlers r !! ty with
       | Some handlers => <[ty := remove_first handler handlers]> (connectionHandlers r)
       | None => connectionHandlers r
       end |}.

(** [notifyConnectionHandlers(status)]: the handlers called, in order, each
    with the session id. *)
Definition notifyConnectionHandlers (status : string) (sessionId : option string) (r : t)
  : list (nat * option string) :=
  match connectionHandlers r !! status with
  | Some handlers => map (fun h => (h, sessionId)) handlers
  | None => []
  end.

End WebSocketHandlers.

(** ** VideoService: initialization and the stream life cycle *)

Module VideoLifecycle.
Import JSNumber VideoService.

(** The whole service: the settings fields of [VideoService.t] and the
    rest. [stream] is [None] for [null], [Some true] for a stream with live
    tracks and [Some false] for one whose tracks were stopped. The three other
    fields record whether the field is set. *)
Record service : Type := {
  core : VideoService.t;
  videoElement : bool;
  ctx : bool;
  stream : option bool;
  onVideoError : bool
}.

(** [constructor()] *)
Definition constructor : service := {|
  core := VideoService.constructor;
  videoElement := false;
  ctx := false;
  stream := None;
  onVideoError := false
|}.

Definition with_core (c : VideoService.t) (s : service) : service :=
  {| core := c; videoElement := videoElement s; ctx := ctx s; stream := stream s;
     onVideoError := onVideoError s |}.

Definition with_stream (x : option bool) (s : service) : service :=
  {| core := core s; videoElement := videoElement s; ctx := ctx s; stream := x;
     onVideoError := onVideoError s |}.

Definition set_isStreaming (b : bool) (v : VideoService.t) : VideoService.t :=
  {| canvas_ := canvas_ v; isStreaming := b; frameInterval := frameInterval v;
     frameRate := frameRate v; quality := quality v;
     width := width v; height := height v |}.

Definition set_frameInterval (x : option number) (v : VideoService.t) : VideoService.t :=
  {| canvas_ := canvas_ v; isStreaming := isStreaming v; frameInterval := x;
     frameRate := frameRate v; quality := quality v;
     width := width v; height := height v |}.

Definition set_canvas (x : option canvas) (v : VideoService.t) : VideoService.t :=
  {| canvas_ := x; isStreaming := isStreaming v; frameInterval := frameInterval v;
     frameRate := frameRate v; quality := quality v;
     width := width v; height := height v |}.

(** The four assignments [if (options.f) this.f = options.f] of
    [initialize]; the fields are written as given. *)
Definition apply_options (options : settings) (v : VideoService.t) : VideoService.t :=
  {| canvas_ := canvas_ v; isStreaming := isStreaming v; frameInterval := frameInterval v;
     frameRate := if present (s_frameRate options)
                  then get (s_frameRate options) NaN else frameRate v;
     quality := if present (s_quality options)
                then get (s_quality options) NaN else quality v;
     width := if present (s_width options) then get (s_width options) NaN else width v;
     height := if present (s_height options) then get (s_height options) NaN else height v |}.

(** [initialize(videoElement, options = {})] with an element; it resolves to
    true. *)
Definition initialize (options : settings) (s : service) : service :=
  let v := apply_options options (core s) in
  {| core := set_canvas (Some {| canvas_width := width v; canvas_height := height v |}) v;
     videoElement := true;
     ctx := true;
     stream := stream s;
     onVideoError := onVideoError s |}.

(** How a call ends: with a returned flag, or with a thrown error. *)
Inductive outcome : Type := Returned (b : bool) | Thrown.

(** What [getUserMedia] does. *)
Inductive camera : Type := Granted | Denied.

(** [startVideo()] *)
Definition startVideo (c : camera) (s : service) : outcome * service :=
  if isStreaming (core s) then (Returned false, s)
  else
    match c with
    | Granted =>
        let s1 := with_stream (Some true) s in
        (Returned true,
         with_core (startFrameCapture (set_isStreaming true (core s1))) s1)
    | Denied => (Thrown, s)
    end.

(** [stopVideo()] *)
Definition stopVideo (s : service) : outcome * service :=
  if negb (isStreaming (core s)) then (Returned false, s)
  else
    let v1 := set_isStreaming false (core s) in
    let v2 := match frameInterval v1 with
              | Some _ => set_frameInterval None v1
              | None => v1
              end in
    (Returned true, with_stream None (with_core v2 s)).

(** [updateSettings(settings)] on the whole service. *)
Definition updateSettings (x : settings) (s : service) : service :=
  with_core (VideoService.updateSettings x (core s)) s.

(** [switchVideoDevice(deviceId)]: the tracks of the current stream are
    stopped first; when the camera is denied the stopped stream stays in
    place and the call throws. *)
Definition switchVideoDevice (c : camera) (s : service) : outcome * service :=
  let s1 := match stream s with
            | Some _ => with_stream (Some false) s
            | None => s
            end in
  match c with
  | Granted => (Returned true, with_stream (Some true) s1)
  | Denied => (Thrown, s1)
  end.

(** [cleanup()] *)
Definition cleanup (s : service) : service :=
  let s1 := snd (stopVideo s) in
  {| core := set_canvas None (core s1);
     videoElement := false;
     ctx := match canvas_ (core s1) with Some _ => false | None => ctx s1 end;
     stream := stream s1;
     onVideoError := onVideoError s1 |}.

(** [setVideoErrorCallback(callback)], for a callback that is a function. *)
Definition setVideoErrorCallback (s : service) : service :=
  {| core := core s; videoElement := videoElement s; ctx := ctx s; stream := stream s;
     onVideoError := true |}.

(** [getSettings()] *)
Record settings_view : Type := {
  view_frameRate : number;
  view_quality : number;
  view_width : number;
  view_height : number;
  view_isStreaming : bool
}.

Definition getSettings (s : service) : settings_view :=
  {| view_frameRate := frameRate (core s);
     view_quality := quality (core s);
     view_width := width (core s);
     view_height := height (core s);
     view_isStreaming := isStreaming (core s) |}.

(** The calls a user of the service can make, with the camera's answer
    where one is asked for. Each call runs to its end before the next one
    starts. *)
Inductive call : Type :=
| Initialize (options : settings)
| StartVideo (c : camera)
| StopVideo
| UpdateSettings (x : settings)
| SwitchVideoDevice (c : camera)
| Cleanup.

Definition step (c : call) (s : service) : service :=
  match c with
  | Initialize options => initialize options s
  | StartVideo cam => snd (startVideo cam s)
  | StopVideo => snd (stopVideo s)
  | UpdateSettings x => updateSettings x s
  | SwitchVideoDevice cam => snd (switchVideoDevice cam s)
  | Cleanup => cleanup s
  end.

Definition run (cs : list call) (s : service) : service :=
  foldl (fun s c => step c s) s cs.

(** A call that writes the quality without clamping it: [initialize] with a
    truthy [quality] option. *)
Definition writes_quality_raw (c : call) : bool :=
  match c with
  | Initialize options => present (s_quality options)
  | _ => false
  end.

(** A call that writes the frame rate without restarting the capture timer:
    [initialize] with a truthy [frameRate] option. *)
Definition writes_frameRate_raw (c : call) : bool :=
  match c with
  | Initialize options => present (s_frameRate options)
  | _ => false
  end.

Definition is_initialize (c : call) : bool :=
  match c with
  | Initialize _ => true
  | _ => false
  end.

End VideoLifecycle.

(** ** App with the notification list: error reporting and session controls *)

Module AppSession.
Import ErrorHandler.
Local Open Scope string_scope.

(** The notification state, the [isLoading] flag and the socket service the
    component calls into. *)
Record t : Type := {
  notes : AppNotifications.t;
  isLoading : bool;
  socket : WebSocketService.t
}.

Definition initial : t := {|
  notes := AppNotifications.initial;
  isLoading := false;
  socket := WebSocketService.constructor
|}.

(** [new Error(message)] *)
Definition Error (msg : string) : error :=
  {| name := Some "Error"; message := Some msg |}.

(** [handleAppError(error, context = 'Operation')] on the notification
    state. [err_date] is the [new Date()] of [handleError]; [now] and [date]
    are the clock reads of [addNotification]. *)
Definition handleAppError (e : error) (ctx : option string) (err_date now date : Z)
    (n : AppNotifications.t) : AppNotifications.t :=
  let errorInfo := handleError e ctx (Some GENERAL) err_date in
  AppNotifications.addNotification (userMessage errorInfo) (Some "error") (Some 8000%Z)
    now date n.

Definition set_isLoading (b : bool) (st : t) : t :=
  {| notes := notes st; isLoading := b; socket := socket st |}.

(** [startAISession()]. [t1] and [t2] are the clock reads of [sendControl]
    and [send]. *)
Definition startAISession (t1 t2 : string) (err_date now date : Z) (st : t) : t :=
  let st1 := set_isLoading true st in
  let (success, w) := WebSocketAPI.startAISession [] t1 t2 (socket st1) in
  let st2 := {| notes := notes st1; isLoading := isLoading st1; socket := w |} in
  let st3 :=
    if success then st2
    else {| notes := handleAppError (Error "Failed to send AI session start command")
                       (Some "AI session start") err_date now date (notes st2);
            isLoading := isLoading st2;
            socket := socket st2 |} in
  set_isLoading false st3.

(** [stopAISession()] *)
Definition stopAISession (t1 t2 : string) (err_date now date : Z) (st : t) : t :=
  let st1 := set_isLoading true st in
  let (success, w) := WebSocketAPI.stopAISession t1 t2 (socket st1) in
  let st2 := {| notes := notes st1; isLoading := isLoading st1; socket := w |} in
  let st3 :=
    if success then st2
    else {| notes := handleAppError (Error "Failed to send AI session stop command")
                       (Some "AI session stop") err_date now date (notes st2);
            isLoading := isLoading st2;
            socket := socket st2 |} in
  set_isLoading false st3.

(** [testConnection()]. [generated] and [c] are what the [connect()] of the
    second branch meets. *)
Definition testConnection (t2 generated : string) (c : WebSocketService.ctor_outcome)
    (st : t) : t :=
  if WebSocketAPI.isConnected (socket st)
  then {| notes := notes st; isLoading := isLoading st;
          socket := snd (WebSocketService.ping t2 (socket st)) |}
  else {| notes := notes st; isLoading := isLoading st;
          socket := WebSocketService.connect None generated c (socket st) |}.

(** What happens to the notification list: a call of [addNotification], a
    removal timer firing, or a click on a notification. *)
Inductive event : Type :=
| Notify (msg : string) (ty : option string) (duration : option Z) (now date : Z)
| TimerFires (k : nat)
| Clicks (j : nat).

Definition step (e : event) (n : AppNotifications.t) : AppNotifications.t :=
  match e with
  | Notify msg ty duration now date =>
      AppNotifications.addNotification msg ty duration now date n
  | TimerFires k => AppNotifications.timer_fires k n
  | Clicks j => AppNotifications.click j n
  end.

Definition run (es : list event) (n : AppNotifications.t) : AppNotifications.t :=
  foldl (fun n e => step e n) n es.

(** The calls of [addNotification] that pass its type test. *)
Definition is_error_notify (e : event) : bool :=
  match e with
  | Notify _ ty _ _ _ => String.eqb (default "error" ty) "error"
  | _ => false
  end.

Definition is_timer (e : event) : bool :=
  match e with TimerFires _ => true | _ => false end.

End AppSession.

(** * Properties *)

(** ** VideoService *)

Lemma video_quality_written (v : VideoService.t) (x : JSNumber.number) :
  VideoService.quality (VideoService.updateSettings (VideoService.only_quality x) v) =
  if JSNumber.truthy x
  then JSNumber.Math_max (JSNumber.Fin JSNumber.lit_0_1)
         (JSNumber.Math_min (JSNumber.Fin JSNumber.lit_1_0) x)
  else VideoService.quality v.
Proof.
  unfold VideoService.updateSettings, VideoService.only_quality; simpl.
  destruct (JSNumber.truthy x); reflexivity.
Qed.

Lemma Math_min_Qmin (a b : Q) :
  JSNumber.Math_min (JSNumber.Fin a) (JSNumber.Fin b) = JSNumber.Fin (Qmin a b).
Proof.
  unfold JSNumber.Math_min, JSNumber.lt; simpl.
  unfold Qmin, GenericMinMax.gmin.
  destruct (Qlt_le_dec b a) as [Hlt | Hle]; destruct (a ?= b)%Q eqn:Hc;
    try reflexivity; exfalso.
  - apply Qeq_alt in Hc. lra.
  - apply Qlt_alt in Hc. lra.
  - apply Qgt_alt in Hc. lra.
Qed.

Lemma Math_max_Qmax (a b : Q) :
  JSNumber.Math_max (JSNumber.Fin a) (JSNumber.Fin b) = JSNumber.Fin (Qmax a b).
Proof.
  unfold JSNumber.Math_max, JSNumber.lt; simpl.
  unfold Qmax, GenericMinMax.gmax.
  destruct (Qlt_le_dec a b) as [Hlt | Hle]; destruct (a ?= b)%Q eqn:Hc;
    try reflexivity; exfalso.
  - apply Qeq_alt in Hc. lra.
  - apply Qgt_alt in Hc. lra.
  - apply Qlt_alt in Hc. lra.
Qed.

(** C4, as the code has it. For every number [x] that is truthy (neither 0
    nor NaN), [updateSettings({quality: x})] stores
    [max(0.1, min(1.0, x))]; for 0 and NaN the guard [if (settings.quality)]
    skips the assignment and the stored quality is unchanged. *)
Theorem video_updateSettings_quality (v : VideoService.t) :
  (forall q : Q, ~ q == 0 ->
     VideoService.quality
       (VideoService.updateSettings (VideoService.only_quality (JSNumber.Fin q)) v)
     = JSNumber.Fin (Qmax JSNumber.lit_0_1 (Qmin JSNumber.lit_1_0 q)))
  /\ VideoService.quality
       (VideoService.updateSettings (VideoService.only_quality JSNumber.PosInf) v)
     = JSNumber.Fin JSNumber.lit_1_0
  /\ VideoService.quality
       (VideoService.updateSettings (VideoService.only_quality JSNumber.NegInf) v)
     = JSNumber.Fin JSNumber.lit_0_1
  /\ (forall q : Q, q == 0 ->
     VideoService.quality
       (VideoService.updateSettings (VideoService.only_quality (JSNumber.Fin q)) v)
     = VideoService.quality v)
  /\ VideoService.quality
       (VideoService.updateSettings (VideoService.only_quality JSNumber.NaN) v)
     = VideoService.quality v.
Proof.
  split; [| split; [| split; [| split]]].
  - intros q Hq. rewrite video_quality_written. simpl.
    destruct (Qeq_bool q 0) eqn:E.
    + apply Qeq_bool_iff in E. contradiction.
    + simpl. rewrite Math_min_Qmin, Math_max_Qmax. reflexivity.
  - rewrite video_quality_written. reflexivity.
  - rewrite video_quality_written. reflexivity.
  - intros q Hq. rewrite video_quality_written. simpl.
    apply Qeq_bool_iff in Hq. rewrite Hq. reflexivity.
  - rewrite video_quality_written. reflexivity.
Qed.

Lemma video_updateSettings_quality_witness :
  VideoService.quality
    (VideoService.updateSettings (VideoService.only_quality (JSNumber.Fin 5))
       VideoService.constructor)
  = JSNumber.Fin (Qmax JSNumber.lit_0_1 (Qmin JSNumber.lit_1_0 5))
  /\
  VideoService.quality
    (VideoService.updateSettings (VideoService.only_quality (JSNumber.Fin 0))
       VideoService.constructor)
  = VideoService.quality VideoService.constructor.
Proof.
  split.
  - apply (proj1 (video_updateSettings_quality VideoService.constructor) 5%Q).
    unfold Qeq; simpl; lia.
  - apply (proj1 (proj2 (proj2 (proj2
             (video_updateSettings_quality VideoService.constructor)))) 0%Q).
    reflexivity.
Defined.

(** C4, as stated, fails at [x = 0]: the stored quality stays at the
    constructor's 0.8, which is not [max(0.1, min(1.0, 0)) = 0.1]. *)
Lemma video_quality_zero_counterexample :
  ~ JSNumber.num_eq
      (VideoService.quality
         (VideoService.updateSettings (VideoService.only_quality (JSNumber.Fin 0))
            VideoService.constructor))
      (JSNumber.Fin (Qmax JSNumber.lit_0_1 (Qmin JSNumber.lit_1_0 0))).
Proof.
  vm_compute. discriminate.
Qed.

(** ** AudioService: the voice-activity gate *)

Lemma sum_squares_silent (n : nat) :
  AudioService.sum_squares 0%float (AudioService.silent n) = 0%float.
Proof.
  induction n as [| n IH]; simpl; [reflexivity | exact IH].
Qed.

Lemma zero_div_class (y : float) :
  Prim2SF (0 / y)%float = S754_zero false \/
  Prim2SF (0 / y)%float = S754_zero true \/
  Prim2SF (0 / y)%float = S754_nan.
Proof.
  rewrite div_spec. unfold SF64div, SFdiv.
  change (Prim2SF 0%float) with (S754_zero false).
  destruct (Prim2SF y) as [[] | [] | | [] m e]; simpl; auto.
Qed.

Lemma sqrt_zero_class (x : float) :
  Prim2SF x = S754_zero false \/ Prim2SF x = S754_zero true \/ Prim2SF x = S754_nan ->
  Prim2SF (PrimFloat.sqrt x) = S754_zero false \/
  Prim2SF (PrimFloat.sqrt x) = S754_zero true \/
  Prim2SF (PrimFloat.sqrt x) = S754_nan.
Proof.
  rewrite sqrt_spec. unfold SF64sqrt, SFsqrt.
  intros [H | [H | H]]; rewrite H; auto.
Qed.

(** A positive threshold is never below a zero or a NaN. *)
Lemma positive_not_below_zero (th r : float) :
  (0 <? th)%float = true ->
  Prim2SF r = S754_zero false \/ Prim2SF r = S754_zero true \/ Prim2SF r = S754_nan ->
  (th <? r)%float = false.
Proof.
  rewrite !ltb_spec. change (Prim2SF 0%float) with (S754_zero false).
  unfold SFltb, SFcompare.
  intros Hpos [H | [H | H]]; rewrite H;
    destruct (Prim2SF th) as [[] | [] | | [] m e]; simpl in *; congruence.
Qed.

Lemma rms_silent_class (n : nat) :
  let r := AudioService.rms (AudioService.silent n) in
  Prim2SF r = S754_zero false \/ Prim2SF r = S754_zero true \/ Prim2SF r = S754_nan.
Proof.
  unfold AudioService.rms. rewrite sum_squares_silent.
  apply sqrt_zero_class, zero_div_class.
Qed.

(** C5. The audio-data callback is called only for a chunk that decoded and
    whose RMS, as [detectVoiceActivity] computes it, exceeds [vadThreshold];
    for a buffer of zeros of any length and a threshold above 0,
    [detectVoiceActivity] returns false and no callback is made. *)
Theorem audio_vad_gate (a : AudioService.t) :
  (forall decoded now c,
      In c (AudioService.processAudioChunk a decoded now) ->
      exists audioData,
        decoded = Some audioData /\
        (AudioService.vadThreshold a <? AudioService.rms audioData)%float = true /\
        AudioService.cb_audioData c = audioData)
  /\
  (forall n now,
      (0 <? AudioService.vadThreshold a)%float = true ->
      AudioService.detectVoiceActivity a (AudioService.silent n) = false /\
      AudioService.processAudioChunk a (Some (AudioService.silent n)) now = []).
Proof.
  split.
  - intros decoded now c. unfold AudioService.processAudioChunk.
    destruct (AudioService.audioContext a); [| intros []].
    destruct decoded as [audioData |]; [| intros []].
    unfold AudioService.detectVoiceActivity.
    destruct (AudioService.vadThreshold a <? AudioService.rms audioData)%float eqn:Hgate;
      [| intros []].
    destruct (AudioService.onAudioData a); [| intros []].
    intros [<- | []]. exists audioData. auto.
  - intros n now Hpos.
    assert (Hno : AudioService.detectVoiceActivity a (AudioService.silent n) = false).
    { unfold AudioService.detectVoiceActivity.
      apply positive_not_below_zero; [exact Hpos | apply rms_silent_class]. }
    split; [exact Hno |].
    unfold AudioService.processAudioChunk. rewrite Hno.
    destruct (AudioService.audioContext a); reflexivity.
Qed.

(** A chunk of two samples at 0.5 passes the gate of a service with the
    default threshold. *)
Example audio_loud_chunk_fires :
  let a := AudioService.setAudioDataCallback (AudioService.initialize AudioService.constructor) in
  AudioService.detectVoiceActivity a [0.5; 0.5]%float = true /\
  length (AudioService.processAudioChunk a (Some [0.5; 0.5]%float)
            "2025-01-01T00:00:00.000Z") = 1%nat.
Proof. split; reflexivity. Qed.

Lemma audio_vad_gate_witness :
  let a := AudioService.setAudioDataCallback (AudioService.initialize AudioService.constructor) in
  AudioService.detectVoiceActivity a (AudioService.silent 4) = false /\
  AudioService.processAudioChunk a (Some (AudioService.silent 4)) "2025-01-01T00:00:00.000Z" = [].
Proof.
  intros a. apply (proj2 (audio_vad_gate a) 4%nat "2025-01-01T00:00:00.000Z"%string).
  reflexivity.
Defined.

(** ** AudioService settings *)

(** The noise suppression flag, supplied under the key that [getSettings]
    reports, is replaced by [undefined]: the assignment reads
    [settings.noiseSuppression]. *)
Lemma audio_noise_suppression_dropped (a : AudioService.t) (b : bool) :
  AudioService.noise_suppression
    (AudioService.getSettings
       (AudioService.updateSettings
          {| AudioService.s_sample_rate := None;
             AudioService.s_channels := None;
             AudioService.s_vad_threshold := None;
             AudioService.s_echo_cancellation := None;
             AudioService.s_noise_suppression := Some b;
             AudioService.s_noiseSuppression := None |} a))
  = None.
Proof. reflexivity. Qed.

(** C8, as stated, fails: a sample rate of 0 and a channel count are both
    fields of the settings that [getSettings] reports, and neither is stored. *)
Lemma audio_settings_roundtrip_counterexample :
  let s := {| AudioService.s_sample_rate := Some 0%float;
              AudioService.s_channels := Some 2%float;
              AudioService.s_vad_threshold := None;
              AudioService.s_echo_cancellation := None;
              AudioService.s_noise_suppression := None;
              AudioService.s_noiseSuppression := None |} in
  let g := AudioService.getSettings (AudioService.updateSettings s AudioService.constructor) in
  (AudioService.sample_rate g =? 0)%float = false /\
  (AudioService.channels_ g =? 2)%float = false /\
  AudioService.sample_rate g = 24000%float /\
  AudioService.channels_ g = 1%float.
Proof. repeat split. Qed.

(** C8, as the code has it. After [updateSettings(s)], [getSettings()]
    returns the supplied [vad_threshold] and [echo_cancellation] whenever they
    are defined in [s], and the supplied [sample_rate] whenever it is truthy;
    a falsy or absent [sample_rate], an absent [vad_threshold] or
    [echo_cancellation], and [channels] in every case, keep the stored
    value. *)
Theorem audio_updateSettings_roundtrip (s : AudioService.settings) (a : AudioService.t) :
  let g := AudioService.getSettings (AudioService.updateSettings s a) in
  (forall th, AudioService.s_vad_threshold s = Some th -> AudioService.vad_threshold g = th)
  /\ (forall e, AudioService.s_echo_cancellation s = Some e ->
               AudioService.echo_cancellation g = e)
  /\ (forall r, AudioService.s_sample_rate s = Some r -> AudioService.truthy r = true ->
               AudioService.sample_rate g = r)
  /\ (forall r, AudioService.s_sample_rate s = Some r -> AudioService.truthy r = false ->
               AudioService.sample_rate g = AudioService.sampleRate a)
  /\ (AudioService.s_sample_rate s = None ->
      AudioService.sample_rate g = AudioService.sampleRate a)
  /\ (AudioService.s_vad_threshold s = None ->
      AudioService.vad_threshold g = AudioService.vadThreshold a)
  /\ (AudioService.s_echo_cancellation s = None ->
      AudioService.echo_cancellation g = AudioService.echoCancellation a)
  /\ AudioService.channels_ g = AudioService.channels a.
Proof.
  simpl.
  split; [| split; [| split; [| split; [| split; [| split; [| split]]]]]].
  - intros th ->. reflexivity.
  - intros e ->. reflexivity.
  - intros r -> ->. reflexivity.
  - intros r -> ->. reflexivity.
  - intros ->. reflexivity.
  - intros ->. reflexivity.
  - intros ->. reflexivity.
  - reflexivity.
Qed.

Lemma audio_updateSettings_roundtrip_witness :
  let s := {| AudioService.s_sample_rate := Some 48000%float;
              AudioService.s_channels := Some 2%float;
              AudioService.s_vad_threshold := Some 0.5%float;
              AudioService.s_echo_cancellation := Some false;
              AudioService.s_noise_suppression := None;
              AudioService.s_noiseSuppression := None |} in
  let g := AudioService.getSettings (AudioService.updateSettings s AudioService.constructor) in
  AudioService.vad_threshold g = 0.5%float /\
  AudioService.echo_cancellation g = false /\
  AudioService.sample_rate g = 48000%float.
Proof.
  intros s g.
  pose proof (audio_updateSettings_roundtrip s AudioService.constructor) as H.
  split; [| split].
  - apply (proj1 H). reflexivity.
  - apply (proj1 (proj2 H)). reflexivity.
  - apply (proj1 (proj2 (proj2 H))); reflexivity.
Defined.

(** ** App: notifications *)

Lemma filter_keeps_objects (i : Z) (l : list (nat * AppNotifications.notification)) :
  List.filter
    (fun n => AppNotifications.strict_neq (AppNotifications.VObject (fst n))
                (AppNotifications.VNumber i)) l = l.
Proof.
  induction l as [| n l IH]; [reflexivity |].
  cbn [List.filter AppNotifications.strict_neq]. f_equal. exact IH.
Qed.

(** C7 does not hold of the code. [removeNotification(id)] compares each
    notification object, not its [id] field, with the number [id]; the two
    are never strictly equal, so the filter keeps every element and the list
    is left as it was, whether the call comes from the timer or from a
    click. *)
Theorem removeNotification_removes_nothing (i : Z) (st : AppNotifications.t) :
  AppNotifications.notifications (AppNotifications.removeNotification i st)
  = AppNotifications.notifications st
  /\ (forall k, AppNotifications.ids (AppNotifications.timer_fires k st)
                = AppNotifications.ids st)
  /\ (forall j, AppNotifications.ids (AppNotifications.click j st)
                = AppNotifications.ids st).
Proof.
  split; [| split].
  - apply filter_keeps_objects.
  - intros k. unfold AppNotifications.timer_fires, AppNotifications.ids.
    destruct (AppNotifications.timers st !! k) as [[d i'] |]; [| reflexivity].
    unfold AppNotifications.removeNotification. cbn [AppNotifications.notifications].
    now rewrite filter_keeps_objects.
  - intros j. unfold AppNotifications.click, AppNotifications.ids.
    destruct (AppNotifications.notifications st !! j) as [[a n] |]; [| reflexivity].
    unfold AppNotifications.removeNotification. cbn [AppNotifications.notifications].
    now rewrite filter_keeps_objects.
Qed.

(** An error notification added at time 1700000000000 is still listed after
    its 8-second timer has fired, and after a click on it. *)
Example notification_survives_removal :
  let st := AppNotifications.addNotification "Connection failed" None None
              1700000000000 1700000000000 AppNotifications.initial in
  AppNotifications.timers st = [(8000, 1700000000000)] /\
  AppNotifications.ids st = [1700000000000] /\
  AppNotifications.ids (AppNotifications.timer_fires 0 st) = [1700000000000] /\
  AppNotifications.ids (AppNotifications.click 0 st) = [1700000000000] /\
  AppNotifications.ids (AppNotifications.removeNotification 1700000000000 st)
  = [1700000000000].
Proof. repeat split. Qed.

(** C10. For a type other than ['error'], [addNotification] returns at once:
    the notification list and the pending timers are what they were. *)
Theorem addNotification_ignores_non_error
    (msg ty : string) (duration : option Z) (now date : Z) (st : AppNotifications.t) :
  ty <> "error"%string ->
  AppNotifications.addNotification msg (Some ty) duration now date st = st.
Proof.
  intros Hty. unfold AppNotifications.addNotification. simpl.
  destruct (String.eqb ty "error") eqn:E; [| reflexivity].
  apply String.eqb_eq in E. contradiction.
Qed.

Lemma addNotification_ignores_non_error_witness :
  AppNotifications.addNotification "Settings saved" (Some "success"%string) None
    1700000000000 1700000000000 AppNotifications.initial
  = AppNotifications.initial.
Proof.
  apply (addNotification_ignores_non_error "Settings saved" "success" None
           1700000000000 1700000000000 AppNotifications.initial).
  discriminate.
Defined.

(** ** App: the mute button *)

Lemma sendWebSocketMessage_sends (ty : string) (st : App.t) :
  exists text,
    App.sendWebSocketMessage ty st =
    Some (if App.socket_open st
          then {| App.isMuted := App.isMuted st;
                  App.currentSessionId := App.currentSessionId st;
                  App.socket_open := App.socket_open st;
                  App.outbox := App.outbox st ++ [text] |}
          else st).
Proof.
  unfold App.sendWebSocketMessage.
  destruct (App.socket_open st); [| exists EmptyString; reflexivity].
  destruct (App.currentSessionId st); eexists; reflexivity.
Qed.

Lemma toggleMute_flips (st : App.t) :
  App.isMuted (App.toggleMute st) = negb (App.isMuted st).
Proof.
  unfold App.toggleMute.
  destruct (App.isMuted st) eqn:E.
  - destruct (sendWebSocketMessage_sends "unmute" st) as [text ->]. reflexivity.
  - destruct (sendWebSocketMessage_sends "mute" st) as [text ->]. reflexivity.
Qed.

Lemma toggleMute_open (st : App.t) :
  App.socket_open st = true ->
  App.socket_open (App.toggleMute st) = true /\
  length (App.outbox (App.toggleMute st)) = S (length (App.outbox st)).
Proof.
  intros Hopen. unfold App.toggleMute.
  destruct (App.isMuted st).
  - destruct (sendWebSocketMessage_sends "unmute" st) as [text ->].
    rewrite Hopen; simpl. rewrite length_app; simpl. split; [auto | lia].
  - destruct (sendWebSocketMessage_sends "mute" st) as [text ->].
    rewrite Hopen; simpl. rewrite length_app; simpl. split; [auto | lia].
Qed.

Lemma handleWebSocketMessage_frame (m : App.message) (st : App.t) :
  App.socket_open (App.handleWebSocketMessage m st) = App.socket_open st /\
  App.outbox (App.handleWebSocketMessage m st) = App.outbox st.
Proof.
  unfold App.handleWebSocketMessage.
  destruct (String.eqb (App.m_type m) "mute_response");
    [| destruct (String.eqb (App.m_type m) "unmute_response")];
    destruct (App.is_success m); split; reflexivity.
Qed.

(** One round: a click and the response to the request it sent. *)
Lemma mute_round (m : App.message) (st : App.t) :
  App.m_type m = (if App.isMuted st then "unmute_response" else "mute_response")%string ->
  let st' := App.handleWebSocketMessage m (App.toggleMute st) in
  App.isMuted st' = (if App.is_success m then negb (App.isMuted st) else App.isMuted st)
  /\ App.acknowledged (App.isMuted st) [App.Click; App.Receive m] = App.isMuted st'.
Proof.
  intros Hty. simpl.
  unfold App.handleWebSocketMessage. rewrite Hty.
  pose proof (toggleMute_flips st) as Hflip.
  destruct (App.isMuted st) eqn:Hd; simpl;
    destruct (App.is_success m); simpl; auto.
Qed.

Lemma responses_round (m : App.message) (d : bool) (rest : list App.event) :
  App.m_type m = (if d then "unmute_response" else "mute_response")%string ->
  App.responses (App.Click :: App.Receive m :: rest) = S (App.responses rest).
Proof.
  intros Hty. unfold App.responses. simpl. rewrite Hty.
  destruct d; reflexivity.
Qed.

Lemma mute_in_turn (n : nat) :
  forall (es : list App.event) (st : App.t),
    (length es <= n)%nat ->
    App.socket_open st = true ->
    App.answered_in_turn (App.isMuted st) es = true ->
    App.isMuted (App.run es st) = App.acknowledged (App.isMuted st) es
    /\ length (App.outbox (App.run es st)) = (length (App.outbox st) + App.responses es)%nat.
Proof.
  induction n as [| n IH]; intros es st Hlen Hopen Hturn.
  - destruct es; [| simpl in Hlen; lia]. simpl. split; [reflexivity |].
    unfold App.responses; simpl; lia.
  - destruct es as [| [| m0] [| [| m] rest]]; simpl in Hturn; try discriminate.
    + simpl. split; [reflexivity |]. unfold App.responses; simpl; lia.
    + apply andb_true_iff in Hturn as [Hty Hrest].
      apply String.eqb_eq in Hty.
      destruct (mute_round m st Hty) as [Hd Hack].
      destruct (toggleMute_open st Hopen) as [Hopen1 Hout1].
      destruct (handleWebSocketMessage_frame m (App.toggleMute st)) as [Hopen2 Hout2].
      set (st' := App.handleWebSocketMessage m (App.toggleMute st)) in *.
      assert (Hlen' : (length rest <= n)%nat) by (simpl in Hlen; lia).
      assert (Hopen' : App.socket_open st' = true) by congruence.
      rewrite <- Hd in Hrest.
      destruct (IH rest st' Hlen' Hopen' Hrest) as [Hm Ho].
      change (App.run (App.Click :: App.Receive m :: rest) st) with (App.run rest st').
      change (App.acknowledged (App.isMuted st) (App.Click :: App.Receive m :: rest))
        with (App.acknowledged
                (App.acknowledged (App.isMuted st) [App.Click; App.Receive m]) rest).
      rewrite Hack, (responses_round m (App.isMuted st) rest Hty).
      split; [exact Hm |]. rewrite Ho, Hout2, Hout1. lia.
Qed.

(** C3, as the code has it. [toggleMute] flips [isMuted] at once; a
    [mute_response] whose status is not success sets it to false and an
    [unmute_response] whose status is not success sets it to true; and when
    the socket is open and every click is answered, by the response to its own
    request, before the next click, every request has been answered at the end
    of the trace and the displayed state is the server's last acknowledged
    state. *)
Theorem mute_optimistic_update (st : App.t) :
  App.isMuted (App.toggleMute st) = negb (App.isMuted st)
  /\ (forall m, App.m_type m = "mute_response"%string -> App.is_success m = false ->
                App.isMuted (App.handleWebSocketMessage m st) = false)
  /\ (forall m, App.m_type m = "unmute_response"%string -> App.is_success m = false ->
                App.isMuted (App.handleWebSocketMessage m st) = true)
  /\ (forall es,
         App.socket_open st = true ->
         App.outbox st = [] ->
         App.answered_in_turn (App.isMuted st) es = true ->
         App.quiescent es (App.run es st) = true /\
         App.isMuted (App.run es st) = App.acknowledged (App.isMuted st) es).
Proof.
  split; [| split; [| split]].
  - apply toggleMute_flips.
  - intros m Hty Hs. unfold App.handleWebSocketMessage. rewrite Hty, Hs. reflexivity.
  - intros m Hty Hs. unfold App.handleWebSocketMessage. rewrite Hty, Hs. reflexivity.
  - intros es Hopen Hout Hturn.
    destruct (mute_in_turn (length es) es st (Nat.le_refl _) Hopen Hturn) as [Hm Ho].
    split; [| exact Hm].
    unfold App.quiescent. rewrite Ho, Hout. simpl. apply Nat.eqb_refl.
Qed.

Lemma mute_optimistic_update_witness :
  let es := [App.Click; App.Receive (App.mute_response "error");
             App.Click; App.Receive (App.mute_response "success");
             App.Click; App.Receive (App.unmute_response "error")] in
  App.isMuted (App.handleWebSocketMessage (App.mute_response "error")
                 (App.toggleMute (App.initial true))) = false
  /\ App.isMuted (App.handleWebSocketMessage (App.unmute_response "error")
                    (App.initial true)) = true
  /\ App.quiescent es (App.run es (App.initial true)) = true
  /\ App.isMuted (App.run es (App.initial true)) = App.acknowledged false es.
Proof.
  intros es. split; [| split].
  - apply (proj1 (proj2 (mute_optimistic_update (App.toggleMute (App.initial true)))));
      reflexivity.
  - apply (proj1 (proj2 (proj2 (mute_optimistic_update (App.initial true)))));
      reflexivity.
  - apply (proj2 (proj2 (proj2 (mute_optimistic_update (App.initial true)))) es);
      reflexivity.
Defined.

(** C3, as stated, fails. The first click is acknowledged (the server is
    muted); two more clicks follow before either is answered, and both
    requests fail. Every request has then been answered, the server's last
    acknowledged state is "muted", and the button shows "unmuted". Likewise a
    click while the socket is not open flips the display and sends nothing. *)
Lemma mute_display_diverges :
  let es := [App.Click; App.Receive (App.mute_response "success");
             App.Click; App.Click;
             App.Receive (App.unmute_response "error");
             App.Receive (App.mute_response "error")] in
  let st := App.run es (App.initial true) in
  let st' := App.run [App.Click] (App.initial false) in
  (App.quiescent es st = true /\
   App.acknowledged false es = true /\
   App.isMuted st = false /\
   App.isMuted st <> App.acknowledged false es)
  /\
  (App.quiescent [App.Click] st' = true /\
   App.outbox st' = [] /\
   App.isMuted st' = true /\
   App.isMuted st' <> App.acknowledged false [App.Click]).
Proof.
  split; (split; [reflexivity |]; split; [reflexivity |]; split; [reflexivity |]);
    discriminate.
Qed.

(** ** WebSocketService: sending *)

Lemma get_set_prop (k k' : string) (v : JSON.value) (o : JSON.object) :
  JSON.get_prop k (JSON.set_prop k' v o) =
  if String.eqb k k' then Some v else JSON.get_prop k o.
Proof.
  induction o as [| [k0 v0] o IH]; simpl.
  - destruct (String.eqb k k'); reflexivity.
  - destruct (String.eqb k' k0) eqn:E0; simpl.
    + apply String.eqb_eq in E0; subst k0.
      destruct (String.eqb k k'); reflexivity.
    + destruct (String.eqb k k0) eqn:E1.
      * apply String.eqb_eq in E1; subst k0.
        rewrite String.eqb_sym, E0. reflexivity.
      * exact IH.
Qed.

(** The envelope holds the caller's properties, with [timestamp] and
    [session_id] set, and nothing else. *)
Lemma envelope_props (message : JSON.object) (now : string) (sid : option string)
    (k : string) :
  JSON.get_prop k (WebSocketService.envelope message now sid) =
  if String.eqb k "session_id"
  then Some (match sid with Some s => JSON.Str s | None => JSON.Null end)
  else if String.eqb k "timestamp" then Some (JSON.Str now)
  else JSON.get_prop k message.
Proof.
  unfold WebSocketService.envelope. rewrite !get_set_prop. reflexivity.
Qed.

Lemma send_open (message : JSON.object) (now text : string) (w : WebSocketService.t)
    (i : nat) (sock : WebSocketService.WebSocket) :
  WebSocketService.ws w = Some i ->
  WebSocketService.sockets w !! i = Some sock ->
  WebSocketService.state sock = WebSocketService.OPEN ->
  JSON.stringify (WebSocketService.envelope message now (WebSocketService.sessionId w))
  = Some text ->
  WebSocketService.send message now w =
  (true,
   WebSocketService.set_sockets
     (<[i := WebSocketService.with_frame text sock]> (WebSocketService.sockets w)) w).
Proof.
  intros Hws Hsock Hstate Htext. unfold WebSocketService.send.
  rewrite Hws, Hsock, Hstate, Htext. reflexivity.
Qed.

(** C2. When the socket's readyState is not OPEN, and in particular when
    there is no socket, [send] returns false and the state, platform sockets
    included, is unchanged; when it is OPEN and the envelope serializes,
    [send] returns true and the text is handed to the socket. *)
Theorem ws_send_requires_open (message : JSON.object) (now : string)
    (w : WebSocketService.t) :
  (WebSocketService.ws_readyState w <> Some WebSocketService.OPEN ->
   WebSocketService.send message now w = (false, w))
  /\
  (WebSocketService.ws_readyState w = Some WebSocketService.OPEN ->
   forall text,
     JSON.stringify (WebSocketService.envelope message now (WebSocketService.sessionId w))
     = Some text ->
     exists i sock,
       WebSocketService.ws w = Some i /\
       WebSocketService.sockets w !! i = Some sock /\
       WebSocketService.send message now w =
       (true,
        WebSocketService.set_sockets
          (<[i := WebSocketService.with_frame text sock]> (WebSocketService.sockets w)) w)).
Proof.
  split.
  - intros Hstate. unfold WebSocketService.ws_readyState in Hstate.
    unfold WebSocketService.send.
    destruct (WebSocketService.ws w) as [i |]; [| reflexivity].
    destruct (WebSocketService.sockets w !! i) as [sock |]; [| reflexivity].
    simpl in Hstate.
    destruct (WebSocketService.state sock); try reflexivity. congruence.
  - intros Hstate text Htext. unfold WebSocketService.ws_readyState in Hstate.
    destruct (WebSocketService.ws w) as [i |] eqn:Hws; [| discriminate].
    destruct (WebSocketService.sockets w !! i) as [sock |] eqn:Hsock; [| discriminate].
    simpl in Hstate. injection Hstate as Hstate.
    exists i, sock. split; [auto |]. split; [auto |].
    apply send_open; auto.
Qed.

Lemma connect_created (sid : option string) (generated : string) (w0 : WebSocketService.t) :
  WebSocketService.isConnecting w0 = false ->
  WebSocketService.ws_is_open w0 = false ->
  let id := WebSocketService.or_generated sid generated in
  let w := WebSocketService.connect sid generated WebSocketService.Created w0 in
  WebSocketService.ws w = Some (length (WebSocketService.sockets w0)) /\
  WebSocketService.sessionId w = Some id /\
  WebSocketService.sockets w =
    WebSocketService.sockets w0 ++
      [ {| WebSocketService.url := "ws://localhost:8000/ws/" ++ id;
           WebSocketService.state := WebSocketService.CONNECTING;
           WebSocketService.frames := [] |} ].
Proof.
  intros Hc Ho. unfold WebSocketService.connect. rewrite Hc, Ho. simpl. auto.
Qed.

Lemma onopen_opened (i : nat) (t1 t2 : string) (w : WebSocketService.t)
    (l : list WebSocketService.WebSocket) (u : string) :
  WebSocketService.ws w = Some i ->
  i = length l ->
  WebSocketService.sockets w =
    l ++ [ {| WebSocketService.url := u;
              WebSocketService.state := WebSocketService.CONNECTING;
              WebSocketService.frames := [] |} ] ->
  let w' := WebSocketService.step (WebSocketService.Socket_open i t1 t2) w in
  exists text,
    WebSocketService.ws w' = Some i /\
    WebSocketService.sessionId w' = WebSocketService.sessionId w /\
    WebSocketService.reconnectAttempts w' = 0 /\
    WebSocketService.isConnecting w' = false /\
    WebSocketService.sockets w' =
      l ++ [ {| WebSocketService.url := u;
                WebSocketService.state := WebSocketService.OPEN;
                WebSocketService.frames := [text] |} ].
Proof.
  intros Hws Hi Hsocks.
  assert (Hsub : (i - length l = 0)%nat) by lia.
  unfold WebSocketService.step, WebSocketService.onopen, WebSocketService.platform_state,
    WebSocketService.send.
  cbn [WebSocketService.ws WebSocketService.sessionId WebSocketService.sockets
       WebSocketService.set_isConnecting WebSocketService.set_reconnectAttempts
       WebSocketService.notifyConnectionHandlers WebSocketService.set_sockets].
  rewrite Hws, Hsocks.
  rewrite alter_app_r_alt by lia. rewrite Hsub. cbn [alter list_alter].
  rewrite lookup_app_r by lia. rewrite Hsub.
  cbn [lookup list_lookup WebSocketService.with_state WebSocketService.state
       WebSocketService.url WebSocketService.frames WebSocketService.readyState_eqb].

  destruct (WebSocketService.sessionId w) as [s |] eqn:Hsid;
    (eexists; cbn; rewrite insert_app_r_alt by lia; rewrite Hsub; cbn; repeat split; auto).
Qed.

(** C6. From a state in which [connect] goes ahead, after
    [connect("session_1")] and the socket's open event, [ping()] returns true
    and hands the socket the serialization of
    [{type: 'ping', timestamp: now, session_id: 'session_1'}], where [now] is
    the clock's ISO string: the envelope is the caller's message with the
    timestamp and the session id added, and no other property. *)
Theorem ws_ping_envelope (w0 : WebSocketService.t) (generated t1 t2 now : string) :
  WebSocketService.isConnecting w0 = false ->
  WebSocketService.ws_is_open w0 = false ->
  let i := length (WebSocketService.sockets w0) in
  let w := WebSocketService.step (WebSocketService.Socket_open i t1 t2)
             (WebSocketService.connect (Some "session_1"%string) generated
                WebSocketService.Created w0) in
  let env := [("type", JSON.Str "ping"); ("timestamp", JSON.Str now);
              ("session_id", JSON.Str "session_1")]%string in
  WebSocketService.ws_readyState w = Some WebSocketService.OPEN
  /\ WebSocketService.envelope [("type", JSON.Str "ping")]%string now
       (WebSocketService.sessionId w) = env
  /\ exists text sock,
       JSON.stringify env = Some text /\
       fst (WebSocketService.ping now w) = true /\
       WebSocketService.sockets (snd (WebSocketService.ping now w)) !! i = Some sock /\
       WebSocketService.url sock = "ws://localhost:8000/ws/session_1"%string /\
       last (WebSocketService.frames sock) = Some text.
Proof.
  intros Hc Ho i w env.
  destruct (connect_created (Some "session_1"%string) generated w0 Hc Ho)
    as (Hws & Hsid & Hsocks).
  destruct (onopen_opened i t1 t2 _ _ _ Hws eq_refl Hsocks)
    as (text0 & Hws' & Hsid' & _ & _ & Hsocks').
  fold w in Hws', Hsid', Hsocks'.
  rewrite Hsid in Hsid'. simpl in Hsid'.
  assert (Hstate : WebSocketService.ws_readyState w = Some WebSocketService.OPEN).
  { unfold WebSocketService.ws_readyState. rewrite Hws', Hsocks'.
    rewrite list_lookup_middle by reflexivity. reflexivity. }
  assert (Henv : WebSocketService.envelope [("type", JSON.Str "ping")]%string now
                   (WebSocketService.sessionId w) = env).
  { rewrite Hsid'. reflexivity. }
  split; [exact Hstate |]. split; [exact Henv |].
  assert (Htext : exists text, JSON.stringify env = Some text) by (eexists; reflexivity).
  destruct Htext as [text Htext].
  assert (Hsock : WebSocketService.sockets w !! i
                  = Some {| WebSocketService.url := "ws://localhost:8000/ws/session_1";
                            WebSocketService.state := WebSocketService.OPEN;
                            WebSocketService.frames := [text0] |}).
  { rewrite Hsocks'. apply list_lookup_middle. reflexivity. }
  assert (Hsend := send_open [("type", JSON.Str "ping")]%string now text w i _
                     Hws' Hsock eq_refl).
  rewrite Henv in Hsend. specialize (Hsend Htext).
  exists text. eexists.
  split; [exact Htext |].
  unfold WebSocketService.ping. rewrite Hsend. cbn [fst snd].
  split; [reflexivity |].
  cbn [WebSocketService.sockets WebSocketService.set_sockets].
  rewrite Hsocks'.
  split; [apply list_lookup_insert_eq; rewrite length_app; simpl; lia |].
  split; reflexivity.
Qed.

Lemma ws_ping_envelope_witness :
  let w := WebSocketService.step
             (WebSocketService.Socket_open 0 "2025-01-01T00:00:00.000Z"
                "2025-01-01T00:00:00.001Z")
             (WebSocketService.connect (Some "session_1"%string) "session_0_abc"
                WebSocketService.Created WebSocketService.constructor) in
  WebSocketService.ws_readyState w = Some WebSocketService.OPEN /\
  WebSocketService.envelope [("type", JSON.Str "ping")]%string "2025-01-01T00:00:01.000Z"
    (WebSocketService.sessionId w)
  = [("type", JSON.Str "ping"); ("timestamp", JSON.Str "2025-01-01T00:00:01.000Z");
     ("session_id", JSON.Str "session_1")]%string.
Proof.
  pose proof (ws_ping_envelope WebSocketService.constructor "session_0_abc"
                "2025-01-01T00:00:00.000Z" "2025-01-01T00:00:00.001Z"
                "2025-01-01T00:00:01.000Z" eq_refl eq_refl) as H.
  split; [exact (proj1 H) | exact (proj1 (proj2 H))].
Defined.

(** The text on the wire for that ping. *)
Example ping_on_the_wire :
  let q := JSON.dquote in
  JSON.stringify [("type", JSON.Str "ping");
                  ("timestamp", JSON.Str "2025-01-01T00:00:01.000Z");
                  ("session_id", JSON.Str "session_1")]%string
  = Some ("{" ++ q ++ "type" ++ q ++ ":" ++ q ++ "ping" ++ q ++ ","
              ++ q ++ "timestamp" ++ q ++ ":" ++ q ++ "2025-01-01T00:00:01.000Z" ++ q ++ ","
              ++ q ++ "session_id" ++ q ++ ":" ++ q ++ "session_1" ++ q ++ "}")%string.
Proof. reflexivity. Qed.

Lemma ws_send_requires_open_witness :
  let ping := [("type", JSON.Str "ping")]%string in
  let w := WebSocketService.step
             (WebSocketService.Socket_open 0 "2025-01-01T00:00:00.000Z"
                "2025-01-01T00:00:00.001Z")
             (WebSocketService.connect (Some "session_1"%string) "session_0_abc"
                WebSocketService.Created WebSocketService.constructor) in
  WebSocketService.send ping "2025-01-01T00:00:01.000Z" WebSocketService.constructor
  = (false, WebSocketService.constructor)
  /\ fst (WebSocketService.send ping "2025-01-01T00:00:01.000Z" w) = true.
Proof.
  intros ping w. split.
  - apply (proj1 (ws_send_requires_open ping "2025-01-01T00:00:01.000Z"
                    WebSocketService.constructor)).
    discriminate.
  - destruct (proj2 (ws_send_requires_open ping "2025-01-01T00:00:01.000Z" w)
                eq_refl _ eq_refl) as (i & sock & _ & _ & ->).
    reflexivity.
Defined.

(** ** WebSocketService: reconnection *)

Ltac ws_unfold :=
  unfold WebSocketService.step, WebSocketService.onopen, WebSocketService.onclose,
    WebSocketService.onerror, WebSocketService.disconnect,
    WebSocketService.reconnect_callback, WebSocketService.connect,
    WebSocketService.scheduleReconnect, WebSocketService.handleConnectionError,
    WebSocketService.close_socket, WebSocketService.platform_state,
    WebSocketService.send, WebSocketService.setTimeout,
    WebSocketService.notifyConnectionHandlers, WebSocketService.setAutoReconnect,
    WebSocketService.set_ws, WebSocketService.set_sessionId,
    WebSocketService.set_reconnectAttempts, WebSocketService.set_isConnecting,
    WebSocketService.set_sockets, WebSocketService.set_timeouts in *.

Ltac ws_fields :=
  cbn [WebSocketService.ws WebSocketService.sessionId WebSocketService.reconnectAttempts
       WebSocketService.maxReconnectAttempts WebSocketService.reconnectDelay
       WebSocketService.isConnecting WebSocketService.autoReconnect
       WebSocketService.sockets WebSocketService.timeouts WebSocketService.scheduled
       WebSocketService.notified fst snd] in *.

Ltac ws_cases :=
  repeat (ws_fields;
          match goal with
          | |- context [match ?x with _ => _ end] => destruct x eqn:?
          end);
  ws_fields.

Lemma run_cons (e : WebSocketService.event) (es : list WebSocketService.event)
    (w : WebSocketService.t) :
  WebSocketService.run (e :: es) w = WebSocketService.run es (WebSocketService.step e w).
Proof. reflexivity. Qed.

Lemma step_policy (e : WebSocketService.event) (w : WebSocketService.t) :
  WebSocketService.reconnectDelay (WebSocketService.step e w)
  = WebSocketService.reconnectDelay w /\
  WebSocketService.maxReconnectAttempts (WebSocketService.step e w)
  = WebSocketService.maxReconnectAttempts w.
Proof.
  destruct e; ws_unfold; ws_cases; auto.
Qed.

(** How one event moves the attempt counter and the log of scheduled delays:
    a close event with reconnection enabled and attempts left schedules one
    timer, an open event resets the counter, and nothing else touches
    either. *)
Lemma step_attempts (e : WebSocketService.event) (w : WebSocketService.t) :
  let w' := WebSocketService.step e w in
  let a := WebSocketService.reconnectAttempts w in
  ((exists i, e = WebSocketService.Socket_close i) /\
   WebSocketService.autoReconnect w = true /\
   a < WebSocketService.maxReconnectAttempts w /\
   WebSocketService.reconnectAttempts w' = a + 1 /\
   WebSocketService.scheduled w'
   = WebSocketService.scheduled w ++ [WebSocketService.reconnectDelay w * 2 ^ a] /\
   WebSocketService.timeouts w'
   = WebSocketService.timeouts w ++ [WebSocketService.reconnectDelay w * 2 ^ a])
  \/
  (WebSocketService.is_open_event e = true /\
   WebSocketService.reconnectAttempts w' = 0 /\
   WebSocketService.scheduled w' = WebSocketService.scheduled w)
  \/
  (WebSocketService.is_open_event e = false /\
   WebSocketService.reconnectAttempts w' = a /\
   WebSocketService.scheduled w' = WebSocketService.scheduled w /\
   ((forall i, e <> WebSocketService.Socket_close i) \/
    WebSocketService.autoReconnect w = false \/
    WebSocketService.maxReconnectAttempts w <= a)).
Proof.
  destruct e; try (right; right; ws_unfold; ws_cases; repeat split; auto; left; congruence).
  - right; left. ws_unfold; ws_cases; auto.
  - ws_unfold. ws_fields.
    destruct (WebSocketService.autoReconnect w) eqn:Hauto; simpl.
    + destruct (Z.ltb_spec (WebSocketService.reconnectAttempts w)
                  (WebSocketService.maxReconnectAttempts w)) as [Hlt | Hge].
      * left. ws_fields. repeat split; eauto;
          replace (WebSocketService.reconnectAttempts w + 1 - 1)
            with (WebSocketService.reconnectAttempts w) by lia; reflexivity.
      * right; right. ws_fields. repeat split; auto.
    + right; right. ws_fields. repeat split; auto.
Qed.

Lemma run_policy (es : list WebSocketService.event) (w : WebSocketService.t) :
  WebSocketService.reconnectDelay (WebSocketService.run es w)
  = WebSocketService.reconnectDelay w /\
  WebSocketService.maxReconnectAttempts (WebSocketService.run es w)
  = WebSocketService.maxReconnectAttempts w.
Proof.
  revert w. induction es as [| e es IH]; intros w; [split; reflexivity |].
  rewrite run_cons. destruct (IH (WebSocketService.step e w)) as [-> ->].
  apply step_policy.
Qed.

Lemma step_attempts_bound (e : WebSocketService.event) (w : WebSocketService.t) :
  0 <= WebSocketService.reconnectAttempts w <= WebSocketService.maxReconnectAttempts w ->
  0 <= WebSocketService.reconnectAttempts (WebSocketService.step e w)
    <= WebSocketService.maxReconnectAttempts w.
Proof.
  intros Hb.
  destruct (step_attempts e w) as [(_ & _ & Hlt & -> & _) | [(_ & -> & _) | (_ & -> & _)]];
    lia.
Qed.

Lemma run_attempts_bound (es : list WebSocketService.event) (w : WebSocketService.t) :
  0 <= WebSocketService.reconnectAttempts w <= WebSocketService.maxReconnectAttempts w ->
  0 <= WebSocketService.reconnectAttempts (WebSocketService.run es w)
    <= WebSocketService.maxReconnectAttempts w.
Proof.
  revert w. induction es as [| e es IH]; intros w Hb; [exact Hb |].
  rewrite run_cons.
  rewrite <- (proj2 (step_policy e w)).
  apply IH. rewrite (proj2 (step_policy e w)). apply step_attempts_bound, Hb.
Qed.

(** Without an open event in between, the delays scheduled so far are the
    first terms of 1000, 2000, 4000, 8000, 16000, one per attempt. *)
Lemma run_backoff_log (es : list WebSocketService.event) (w : WebSocketService.t) :
  WebSocketService.reconnectDelay w = 1000 ->
  WebSocketService.maxReconnectAttempts w = 5 ->
  0 <= WebSocketService.reconnectAttempts w <= 5 ->
  WebSocketService.scheduled w
  = take (Z.to_nat (WebSocketService.reconnectAttempts w)) [1000; 2000; 4000; 8000; 16000] ->
  forallb (fun e => negb (WebSocketService.is_open_event e)) es = true ->
  WebSocketService.scheduled (WebSocketService.run es w)
  = take (Z.to_nat (WebSocketService.reconnectAttempts (WebSocketService.run es w)))
      [1000; 2000; 4000; 8000; 16000].
Proof.
  revert w. induction es as [| e es IH]; intros w Hd Hm Hb Hlog Hes; [exact Hlog |].
  simpl in Hes. apply andb_true_iff in Hes as [He Hes].
  rewrite run_cons.
  destruct (step_policy e w) as [Hd' Hm'].
  apply IH; try congruence.
  - rewrite <- Hm. apply step_attempts_bound. lia.
  - destruct (step_attempts e w)
      as [(_ & _ & Hlt & Ha & Hs & _) | [(Ho & _) | (_ & Ha & Hs & _)]].
    + rewrite Ha, Hs, Hlog, Hd.
      assert (Hcase : WebSocketService.reconnectAttempts w = 0
                      \/ WebSocketService.reconnectAttempts w = 1
                      \/ WebSocketService.reconnectAttempts w = 2
                      \/ WebSocketService.reconnectAttempts w = 3
                      \/ WebSocketService.reconnectAttempts w = 4) by lia.
      destruct Hcase as [-> | [-> | [-> | [-> | ->]]]]; reflexivity.
    + rewrite Ho in He. discriminate.
    + rewrite Ha, Hs. exact Hlog.
Qed.

Lemma onclose_idle (i : nat) (w : WebSocketService.t) :
  WebSocketService.autoReconnect w = false
  \/ WebSocketService.maxReconnectAttempts w <= WebSocketService.reconnectAttempts w ->
  let w' := WebSocketService.step (WebSocketService.Socket_close i) w in
  WebSocketService.scheduled w' = WebSocketService.scheduled w /\
  WebSocketService.timeouts w' = WebSocketService.timeouts w /\
  WebSocketService.reconnectAttempts w' = WebSocketService.reconnectAttempts w /\
  WebSocketService.ws w' = WebSocketService.ws w /\
  length (WebSocketService.sockets w') = length (WebSocketService.sockets w).
Proof.
  intros Hidle. ws_unfold. ws_fields.
  assert (Hgate : WebSocketService.autoReconnect w
                  && (WebSocketService.reconnectAttempts w
                      <? WebSocketService.maxReconnectAttempts w) = false).
  { destruct Hidle as [-> | Hge]; [reflexivity |].
    apply andb_false_iff. right. apply Z.ltb_ge. exact Hge. }
  rewrite Hgate. ws_fields. rewrite length_alter. auto.
Qed.

(** C1. In every state the service can reach, the attempt counter lies
    between 0 and 5; [scheduleReconnect], called for attempt [n], sets the
    counter to [n] and schedules a timer of exactly [1000 * 2^(n-1)] ms, and
    a close event with reconnection enabled and fewer than 5 attempts does
    just that; once the counter is 5 a close event schedules nothing; and as
    long as no socket has opened, the delays scheduled since the start are the
    first terms of 1000, 2000, 4000, 8000, 16000, hence at most five. *)
Theorem ws_reconnect_backoff (es : list WebSocketService.event) :
  let w := WebSocketService.run es WebSocketService.constructor in
  0 <= WebSocketService.reconnectAttempts w <= 5
  /\ (forall n,
        WebSocketService.reconnectAttempts w = n - 1 ->
        WebSocketService.reconnectAttempts (WebSocketService.scheduleReconnect w) = n /\
        WebSocketService.scheduled (WebSocketService.scheduleReconnect w)
        = WebSocketService.scheduled w ++ [1000 * 2 ^ (n - 1)] /\
        WebSocketService.timeouts (WebSocketService.scheduleReconnect w)
        = WebSocketService.timeouts w ++ [1000 * 2 ^ (n - 1)])
  /\ (forall i n,
        WebSocketService.autoReconnect w = true ->
        WebSocketService.reconnectAttempts w = n - 1 ->
        n <= 5 ->
        let w' := WebSocketService.step (WebSocketService.Socket_close i) w in
        WebSocketService.reconnectAttempts w' = n /\
        WebSocketService.scheduled w' = WebSocketService.scheduled w ++ [1000 * 2 ^ (n - 1)] /\
        WebSocketService.timeouts w' = WebSocketService.timeouts w ++ [1000 * 2 ^ (n - 1)])
  /\ (forall i,
        WebSocketService.reconnectAttempts w = 5 ->
        let w' := WebSocketService.step (WebSocketService.Socket_close i) w in
        WebSocketService.scheduled w' = WebSocketService.scheduled w /\
        WebSocketService.timeouts w' = WebSocketService.timeouts w /\
        WebSocketService.reconnectAttempts w' = 5 /\
        length (WebSocketService.sockets w') = length (WebSocketService.sockets w))
  /\ (forallb (fun e => negb (WebSocketService.is_open_event e)) es = true ->
      WebSocketService.scheduled w
      = take (Z.to_nat (WebSocketService.reconnectAttempts w))
          [1000; 2000; 4000; 8000; 16000]
      /\ (length (WebSocketService.scheduled w) <= 5)%nat).
Proof.
  intros w.
  destruct (run_policy es WebSocketService.constructor) as [Hd Hm].
  fold w in Hd, Hm. simpl in Hd, Hm.
  assert (Hb : 0 <= WebSocketService.reconnectAttempts w <= 5).
  { apply (run_attempts_bound es WebSocketService.constructor). simpl. lia. }
  split; [exact Hb |].
  split; [| split; [| split]].
  - intros n Hn. ws_unfold. ws_fields. rewrite Hd, Hn.
    replace (n - 1 + 1) with n by lia. auto.
  - intros i n Hauto Hn Hle w'.
    destruct (step_attempts (WebSocketService.Socket_close i) w)
      as [(_ & _ & _ & Ha & Hs & Ht) | [(Ho & _) | (_ & _ & _ & [Hne | [Hoff | Hcap]])]].
    + fold w' in Ha, Hs, Ht. rewrite Ha, Hs, Ht, Hd, Hn.
      replace (n - 1 + 1) with n by lia. auto.
    + discriminate.
    + exfalso. apply (Hne i). reflexivity.
    + congruence.
    + lia.
  - intros i Hfive w'.
    destruct (onclose_idle i w) as (Hs & Ht & Ha & _ & Hl).
    { right. lia. }
    fold w' in Hs, Ht, Ha, Hl. rewrite Hs, Ht, Ha, Hl. auto.
  - intros Hes.
    assert (Hlog : WebSocketService.scheduled w
                   = take (Z.to_nat (WebSocketService.reconnectAttempts w))
                       [1000; 2000; 4000; 8000; 16000]).
    { apply (run_backoff_log es WebSocketService.constructor); simpl; auto; lia. }
    split; [exact Hlog |].
    rewrite Hlog, length_take. simpl. lia.
Qed.

Lemma ws_reconnect_backoff_witness :
  let timer := WebSocketService.Timeout 0 "session_0_abc" WebSocketService.Created in
  let es := [WebSocketService.Call_connect (Some "session_1"%string) "session_0_abc"
               WebSocketService.Created;
             WebSocketService.Socket_close 0; timer;
             WebSocketService.Socket_close 1; timer] in
  let es5 := es ++ [WebSocketService.Socket_close 2; timer;
                    WebSocketService.Socket_close 3; timer;
                    WebSocketService.Socket_close 4; timer] in
  WebSocketService.scheduled (WebSocketService.run es WebSocketService.constructor)
  = [1000; 2000]
  /\ WebSocketService.scheduled
       (WebSocketService.step (WebSocketService.Socket_close 2)
          (WebSocketService.run es WebSocketService.constructor))
     = [1000; 2000; 4000]
  /\ WebSocketService.scheduled
       (WebSocketService.step (WebSocketService.Socket_close 5)
          (WebSocketService.run es5 WebSocketService.constructor))
     = [1000; 2000; 4000; 8000; 16000].
Proof.
  intros timer es es5.
  destruct (ws_reconnect_backoff es) as (_ & _ & Hclose & _ & Hlog).
  destruct (ws_reconnect_backoff es5) as (_ & _ & _ & Hcap & Hlog5).
  split; [| split].
  - exact (proj1 (Hlog eq_refl)).
  - destruct (Hclose 2%nat 3 eq_refl eq_refl ltac:(lia)) as (_ & Hs & _).
    exact Hs.
  - destruct (Hcap 5%nat eq_refl) as (Hs & _).
    exact (eq_trans Hs (proj1 (Hlog5 eq_refl))).
Defined.

(** ** WebSocketService: after [disconnect] *)

Lemma step_autoReconnect_off (e : WebSocketService.event) (w : WebSocketService.t) :
  WebSocketService.enables_autoReconnect e = false ->
  WebSocketService.autoReconnect w = false ->
  WebSocketService.autoReconnect (WebSocketService.step e w) = false.
Proof.
  intros He Hoff.
  destruct e as [| | | [] | | | | |]; try discriminate;
    ws_unfold; ws_cases; auto.
Qed.

(** With reconnection off, only a call of [connect] creates a socket, and no
    event schedules a timer. *)
Lemma step_sockets_off (e : WebSocketService.event) (w : WebSocketService.t) :
  WebSocketService.autoReconnect w = false ->
  (length (WebSocketService.sockets (WebSocketService.step e w))
   <= length (WebSocketService.sockets w)
      + (if WebSocketService.is_connect_call e then 1 else 0))%nat
  /\ WebSocketService.scheduled (WebSocketService.step e w) = WebSocketService.scheduled w.
Proof.
  intros Hoff.
  destruct e; cbn [WebSocketService.is_connect_call];
    ws_unfold; ws_fields; rewrite ?Hoff; cbn [andb]; ws_cases;
    rewrite ?length_insert, ?length_alter, ?length_app, ?length_insert, ?length_alter;
    simpl; split; (reflexivity || lia).
Qed.

Lemma timeout_off (k : nat) (generated : string) (c : WebSocketService.ctor_outcome)
    (w : WebSocketService.t) :
  WebSocketService.autoReconnect w = false ->
  let w' := WebSocketService.step (WebSocketService.Timeout k generated c) w in
  WebSocketService.sockets w' = WebSocketService.sockets w /\
  WebSocketService.ws w' = WebSocketService.ws w /\
  WebSocketService.scheduled w' = WebSocketService.scheduled w /\
  WebSocketService.isConnecting w' = WebSocketService.isConnecting w.
Proof.
  intros Hoff. ws_unfold. ws_fields.
  destruct (WebSocketService.timeouts w !! k); ws_fields; rewrite ?Hoff; simpl; auto.
Qed.

Lemma run_off (es : list WebSocketService.event) (w : WebSocketService.t) :
  forallb (fun e => negb (WebSocketService.enables_autoReconnect e)) es = true ->
  WebSocketService.autoReconnect w = false ->
  WebSocketService.autoReconnect (WebSocketService.run es w) = false
  /\ (length (WebSocketService.sockets (WebSocketService.run es w))
      <= length (WebSocketService.sockets w)
         + length (List.filter WebSocketService.is_connect_call es))%nat
  /\ WebSocketService.scheduled (WebSocketService.run es w) = WebSocketService.scheduled w.
Proof.
  revert w. induction es as [| e es IH]; intros w Hes Hoff.
  - simpl. repeat split; auto. lia.
  - simpl in Hes. apply andb_true_iff in Hes as [He Hes].
    apply negb_true_iff in He.
    rewrite run_cons.
    pose proof (step_autoReconnect_off e w He Hoff) as Hoff'.
    destruct (step_sockets_off e w Hoff) as [Hlen Hs].
    destruct (IH (WebSocketService.step e w) Hes Hoff') as (Ha & Hl & Hs').
    split; [exact Ha |]. split; [| congruence].
    simpl. destruct (WebSocketService.is_connect_call e); simpl; lia.
Qed.

(** For contrast: with reconnection left on, the pending timer of a closed
    connection does open a second socket. *)
Example timer_reconnects_when_enabled :
  let w0 := WebSocketService.run
              [WebSocketService.Call_connect (Some "session_1"%string) "session_0_abc"
                 WebSocketService.Created;
               WebSocketService.Socket_close 0]
              WebSocketService.constructor in
  let w := WebSocketService.step
             (WebSocketService.Timeout 0 "session_0_abc" WebSocketService.Created) w0 in
  WebSocketService.timeouts w0 = [1000] /\
  length (WebSocketService.sockets w0) = 1%nat /\
  length (WebSocketService.sockets w) = 2%nat /\
  WebSocketService.ws w = Some 1%nat.
Proof. repeat split. Qed.

(** C9. [disconnect()] turns [autoReconnect] off and lets go of the socket.
    From then on, through any events and calls other than
    [setAutoReconnect(true)], the flag stays off; a close event schedules no
    timer and creates no socket; a reconnect timer that was already pending
    fires without creating a socket; and the sockets created are no more than
    the calls of [connect] made. *)
Theorem ws_disconnect_stops_reconnect (w0 : WebSocketService.t)
    (es : list WebSocketService.event) :
  forallb (fun e => negb (WebSocketService.enables_autoReconnect e)) es = true ->
  let w := WebSocketService.run es (WebSocketService.disconnect w0) in
  WebSocketService.autoReconnect (WebSocketService.disconnect w0) = false
  /\ WebSocketService.ws (WebSocketService.disconnect w0) = None
  /\ WebSocketService.autoReconnect w = false
  /\ (forall i,
        let w' := WebSocketService.step (WebSocketService.Socket_close i) w in
        length (WebSocketService.sockets w') = length (WebSocketService.sockets w) /\
        WebSocketService.ws w' = WebSocketService.ws w /\
        WebSocketService.scheduled w' = WebSocketService.scheduled w /\
        WebSocketService.timeouts w' = WebSocketService.timeouts w)
  /\ (forall k generated c,
        let w' := WebSocketService.step (WebSocketService.Timeout k generated c) w in
        WebSocketService.sockets w' = WebSocketService.sockets w /\
        WebSocketService.ws w' = WebSocketService.ws w /\
        WebSocketService.scheduled w' = WebSocketService.scheduled w)
  /\ (length (WebSocketService.sockets w)
      <= length (WebSocketService.sockets (WebSocketService.disconnect w0))
         + length (List.filter WebSocketService.is_connect_call es))%nat
  /\ WebSocketService.scheduled w
     = WebSocketService.scheduled (WebSocketService.disconnect w0).
Proof.
  intros Hes w.
  assert (Hoff0 : WebSocketService.autoReconnect (WebSocketService.disconnect w0) = false).
  { ws_unfold. ws_cases; reflexivity. }
  assert (Hws0 : WebSocketService.ws (WebSocketService.disconnect w0) = None).
  { ws_unfold. ws_cases; reflexivity. }
  destruct (run_off es (WebSocketService.disconnect w0) Hes Hoff0) as (Hoff & Hlen & Hs).
  fold w in Hoff, Hlen, Hs.
  split; [exact Hoff0 |]. split; [exact Hws0 |]. split; [exact Hoff |].
  split; [| split; [| split; [exact Hlen | exact Hs]]].
  - intros i w'.
    destruct (onclose_idle i w (or_introl Hoff)) as (H1 & H2 & _ & H3 & H4).
    fold w' in H1, H2, H3, H4. auto.
  - intros k generated c w'.
    destruct (timeout_off k generated c w Hoff) as (H1 & H2 & H3 & _).
    fold w' in H1, H2, H3. auto.
Qed.

Lemma ws_disconnect_stops_reconnect_witness :
  let w0 := WebSocketService.run
              [WebSocketService.Call_connect (Some "session_1"%string) "session_0_abc"
                 WebSocketService.Created;
               WebSocketService.Socket_close 0]
              WebSocketService.constructor in
  let es := [WebSocketService.Socket_close 0;
             WebSocketService.Timeout 0 "session_0_abc" WebSocketService.Created;
             WebSocketService.Socket_error 0] in
  WebSocketService.timeouts w0 = [1000]
  /\ WebSocketService.autoReconnect
       (WebSocketService.run es (WebSocketService.disconnect w0)) = false
  /\ length (WebSocketService.sockets
               (WebSocketService.run es (WebSocketService.disconnect w0))) = 1%nat.
Proof.
  intros w0 es.
  destruct (ws_disconnect_stops_reconnect w0 es eq_refl) as (_ & _ & Hoff & _ & _ & Hlen & _).
  split; [reflexivity |]. split; [exact Hoff |].
  apply Nat.le_antisymm; [exact Hlen | simpl; lia].
Defined.

(** * Further properties of the services *)
(** ** Error handling utilities *)

Lemma prefix_split (n s : string) :
  String.prefix n s = true <-> exists b, s = (n ++ b)%string.
Proof.
  revert s. induction n as [| c n IH]; intros s.
  - split; [intros _; exists s; reflexivity | intros _; destruct s; reflexivity].
  - destruct s as [| c' s]; simpl;
      [split; [discriminate | intros [b Hb]; discriminate] |].
    destruct (Ascii.ascii_dec c c') as [-> | Hne].
    + rewrite IH. split; intros [b Hb]; exists b.
      * change (String c' s = String c' (n ++ b)%string). congruence.
      * change (String c' s = String c' (n ++ b)%string) in Hb. congruence.
    + split; [discriminate | intros [b Hb]].
      change (String c' s = String c (n ++ b)%string) in Hb. congruence.
Qed.

Lemma includes_unfold (n s : string) :
  ErrorHandler.includes n s =
  if String.prefix n s then true
  else match s with
       | EmptyString => false
       | String _ rest => ErrorHandler.includes n rest
       end.
Proof. destruct s; reflexivity. Qed.

(** [includes] finds exactly the substrings. *)
Lemma includes_split (n s : string) :
  ErrorHandler.includes n s = true <-> exists a b, s = (a ++ n ++ b)%string.
Proof.
  induction s as [| c s IH]; rewrite includes_unfold.
  - destruct (String.prefix n EmptyString) eqn:Hp.
    + split; [intros _ | intros _; reflexivity].
      apply prefix_split in Hp as [b Hb]. exists EmptyString, b. exact Hb.
    + split; [discriminate |]. intros (a & b & Hab).
      destruct a; [| discriminate].
      change (EmptyString = (n ++ b)%string) in Hab.
      assert (String.prefix n EmptyString = true) by (apply prefix_split; eauto).
      congruence.
  - destruct (String.prefix n (String c s)) eqn:Hp.
    + split; [intros _ | intros _; reflexivity].
      apply prefix_split in Hp as [b Hb]. exists EmptyString, b. exact Hb.
    + rewrite IH. split.
      * intros (a & b & ->). exists (String c a), b. reflexivity.
      * intros (a & b & Hab). destruct a as [| c' a].
        -- change (String c s = (n ++ b)%string) in Hab.
           assert (String.prefix n (String c s) = true) by (apply prefix_split; eauto).
           congruence.
        -- change (String c s = String c' (a ++ n ++ b)%string) in Hab.
           injection Hab as _ ->. eauto.
Qed.

(** X1. The code [handleError] assigns follows the first test that succeeds: the
    two name tests come before the three message tests, and among those
    'timeout' before 'permission' before 'connection'. The context and the
    error type play no part. *)
Theorem handleError_code_priority (e : ErrorHandler.error) (ctx : option string)
    (ty : option ErrorHandler.ErrorTypes) (date : Z) :
  let code := ErrorHandler.errorCode (ErrorHandler.handleError e ctx ty date) in
  let named n := ErrorHandler.name e = Some n in
  let has needle := exists m, ErrorHandler.message e = Some m /\
                              ErrorHandler.includes needle m = true in
  (code = ErrorHandler.TYPE_ERROR <-> named "TypeError"%string)
  /\ (code = ErrorHandler.NETWORK <-> named "NetworkError"%string)
  /\ (code = ErrorHandler.TIMEOUT <->
      ~ named "TypeError"%string /\ ~ named "NetworkError"%string /\ has "timeout"%string)
  /\ (code = ErrorHandler.PERMISSION_DENIED <->
      ~ named "TypeError"%string /\ ~ named "NetworkError"%string /\
      ~ has "timeout"%string /\ has "permission"%string)
  /\ (code = ErrorHandler.CONNECTION_FAILED <->
      ~ named "TypeError"%string /\ ~ named "NetworkError"%string /\
      ~ has "timeout"%string /\ ~ has "permission"%string /\ has "connection"%string)
  /\ (code = ErrorHandler.UNKNOWN <->
      ~ named "TypeError"%string /\ ~ named "NetworkError"%string /\
      ~ has "timeout"%string /\ ~ has "permission"%string /\ ~ has "connection"%string).
Proof.
  cbn zeta. unfold ErrorHandler.handleError; cbn [ErrorHandler.errorCode].
  unfold ErrorHandler.classify, ErrorHandler.name_is, ErrorHandler.message_includes,
    ErrorHandler.truthy_flag.
  destruct e as [nm msg]; cbn [ErrorHandler.name ErrorHandler.message].
  assert (Hname : forall n, (match nm with Some s => String.eqb s n | None => false end) = true
                            <-> nm = Some n).
  { intros n. destruct nm as [s |]; [| split; discriminate].
    rewrite String.eqb_eq. split; congruence. }
  assert (Hhas : forall needle,
             default false (ErrorHandler.includes needle <$> msg) = true
             <-> exists m, msg = Some m /\ ErrorHandler.includes needle m = true).
  { intros needle. destruct msg as [m |]; simpl.
    - split; [eauto | intros (m' & [= <-] & H); exact H].
    - split; [discriminate | intros (m' & [=] & _)]. }
  pose proof (Hname "TypeError"%string) as HT.
  pose proof (Hname "NetworkError"%string) as HN.
  pose proof (Hhas "timeout"%string) as H1.
  pose proof (Hhas "permission"%string) as H2.
  pose proof (Hhas "connection"%string) as H3.
  destruct (match nm with Some s => String.eqb s "TypeError" | None => false end) eqn:ET.
  { assert (nm = Some "TypeError"%string) as -> by (apply HT; reflexivity).
    repeat split; try discriminate; try tauto; intros; try congruence;
      intuition congruence. }
  destruct (match nm with Some s => String.eqb s "NetworkError" | None => false end) eqn:EN.
  { assert (nm = Some "NetworkError"%string) as -> by (apply HN; reflexivity).
    repeat split; try discriminate; try tauto; intros; try congruence;
      intuition congruence. }
  assert (HT' : nm <> Some "TypeError"%string) by (intros H; apply HT in H; discriminate).
  assert (HN' : nm <> Some "NetworkError"%string) by (intros H; apply HN in H; discriminate).
  destruct (default false (ErrorHandler.includes "timeout" <$> msg)) eqn:E1;
    [| destruct (default false (ErrorHandler.includes "permission" <$> msg)) eqn:E2;
       [| destruct (default false (ErrorHandler.includes "connection" <$> msg)) eqn:E3]];
    repeat split; try discriminate; intros; try congruence; intuition congruence.
Qed.

Lemma classify_range (e : ErrorHandler.error) :
  In (ErrorHandler.classify e)
    [ErrorHandler.TYPE_ERROR; ErrorHandler.NETWORK; ErrorHandler.TIMEOUT;
     ErrorHandler.PERMISSION_DENIED; ErrorHandler.CONNECTION_FAILED; ErrorHandler.UNKNOWN].
Proof.
  unfold ErrorHandler.classify.
  repeat match goal with
         | |- context [if ?b then _ else _] => destruct b
         end; simpl; tauto.
Qed.

(** X2. Whatever the error, [handleError] shows one of few messages. For the
    type Audio it is always the general "unknown error" message, since none of
    the Audio codes is ever assigned; for the other types it is that message
    or the single message of the type whose code [handleError] can assign
    (two for General). *)
Theorem handleError_userMessage (e : ErrorHandler.error) (ctx : option string)
    (ty : ErrorHandler.ErrorTypes) (date : Z) :
  let shown := ErrorHandler.userMessage (ErrorHandler.handleError e ctx (Some ty) date) in
  let entry code := default EmptyString (ErrorHandler.ErrorMessages ty code) in
  match ty with
  | ErrorHandler.AUDIO => shown = ErrorHandler.general_unknown
  | ErrorHandler.GENERAL =>
      In shown [ErrorHandler.general_unknown; entry ErrorHandler.NETWORK;
                entry ErrorHandler.TIMEOUT]
  | ErrorHandler.API => In shown [ErrorHandler.general_unknown; entry ErrorHandler.TIMEOUT]
  | ErrorHandler.WEBSOCKET =>
      In shown [ErrorHandler.general_unknown; entry ErrorHandler.CONNECTION_FAILED]
  | ErrorHandler.RECORDING | ErrorHandler.VIDEO =>
      In shown [ErrorHandler.general_unknown; entry ErrorHandler.PERMISSION_DENIED]
  end.
Proof.
  cbn zeta. unfold ErrorHandler.handleError; cbn [ErrorHandler.userMessage default].
  pose proof (classify_range e) as Hr.
  destruct (ErrorHandler.classify e); simpl in Hr;
    try (exfalso; intuition discriminate);
    destruct ty; vm_compute; tauto.
Qed.

(** X3. The code agrees with the three predicates in one direction: an error
    coded TIMEOUT satisfies [isTimeoutError], one coded PERMISSION_DENIED
    satisfies [isPermissionError], and one coded NETWORK or CONNECTION_FAILED
    satisfies [isNetworkError]. *)
Theorem handleError_code_predicates (e : ErrorHandler.error) (ctx : option string)
    (ty : option ErrorHandler.ErrorTypes) (date : Z) :
  let code := ErrorHandler.errorCode (ErrorHandler.handleError e ctx ty date) in
  (code = ErrorHandler.TIMEOUT -> ErrorHandler.isTimeoutError e = Some true)
  /\ (code = ErrorHandler.PERMISSION_DENIED -> ErrorHandler.isPermissionError e = Some true)
  /\ (code = ErrorHandler.NETWORK -> ErrorHandler.isNetworkError e = Some true)
  /\ (code = ErrorHandler.CONNECTION_FAILED -> ErrorHandler.isNetworkError e = Some true).
Proof.
  cbn zeta. unfold ErrorHandler.handleError; cbn [ErrorHandler.errorCode].
  unfold ErrorHandler.classify, ErrorHandler.isTimeoutError, ErrorHandler.isPermissionError,
    ErrorHandler.isNetworkError, ErrorHandler.or_else, ErrorHandler.message_includes,
    ErrorHandler.truthy_flag.
  destruct (ErrorHandler.name_is "TypeError" e);
    [repeat split; discriminate |].
  destruct (ErrorHandler.name_is "NetworkError" e);
    [repeat split; (discriminate || reflexivity) |].
  destruct (ErrorHandler.message e) as [m |]; simpl;
    [| repeat split; discriminate].
  destruct (ErrorHandler.includes "timeout" m) eqn:E1; simpl.
  { repeat split; try discriminate. intros _.
    destruct (ErrorHandler.name_is "TimeoutError" e); reflexivity. }
  destruct (ErrorHandler.includes "permission" m) eqn:E2; simpl.
  { repeat split; try discriminate. intros _.
    destruct (ErrorHandler.name_is "NotAllowedError" e); reflexivity. }
  destruct (ErrorHandler.includes "connection" m) eqn:E3; simpl.
  { repeat split; try discriminate. intros _.
    destruct (ErrorHandler.includes "network" m); simpl; [reflexivity |].
    destruct (ErrorHandler.includes "fetch" m); reflexivity. }
  repeat split; discriminate.
Qed.

Lemma handleError_code_predicates_witness :
  let e := {| ErrorHandler.name := Some "Error"%string;
              ErrorHandler.message := Some "request timeout: permission check"%string |} in
  ErrorHandler.errorCode (ErrorHandler.handleError e None None 0) = ErrorHandler.TIMEOUT /\
  ErrorHandler.isTimeoutError e = Some true.
Proof.
  intros e. split; [reflexivity |].
  apply (proj1 (handleError_code_predicates e None None 0)). reflexivity.
Defined.

(** X4. [getErrorMessage] returns the table's message when the pair has one,
    otherwise the fallback when that is a non-empty string, otherwise the
    general "unknown error" message; it never returns the empty string. *)
Theorem getErrorMessage_cases (ty : ErrorHandler.ErrorTypes) (code : ErrorHandler.ErrorCode)
    (fallback : option string) :
  ErrorHandler.getErrorMessage ty code fallback <> EmptyString
  /\ (forall m, ErrorHandler.ErrorMessages ty code = Some m ->
                ErrorHandler.getErrorMessage ty code fallback = m)
  /\ (ErrorHandler.ErrorMessages ty code = None ->
      forall f, fallback = Some f -> f <> EmptyString ->
                ErrorHandler.getErrorMessage ty code fallback = f)
  /\ (ErrorHandler.ErrorMessages ty code = None ->
      fallback = None \/ fallback = Some EmptyString ->
      ErrorHandler.getErrorMessage ty code fallback = ErrorHandler.general_unknown).
Proof.
  assert (Hentry : forall m, ErrorHandler.ErrorMessages ty code = Some m -> m <> EmptyString).
  { intros m. destruct ty, code; simpl; intros [= <-]; discriminate. }
  unfold ErrorHandler.getErrorMessage.
  destruct (ErrorHandler.ErrorMessages ty code) as [m |] eqn:Hm.
  - pose proof (Hentry m eq_refl) as Hne.
    assert (Ht : ErrorHandler.truthy_string (Some m) = true).
    { simpl. destruct (String.eqb_spec m EmptyString); [contradiction | reflexivity]. }
    rewrite Ht. simpl.
    split; [exact Hne |]. split; [intros m' [= <-]; reflexivity |].
    split; discriminate.
  - simpl. destruct fallback as [f |]; simpl.
    + destruct (String.eqb_spec f EmptyString) as [-> | Hf]; simpl.
      * split; [discriminate |]. split; [discriminate |].
        split; [intros _ f' [= <-] Hf'; contradiction | reflexivity].
      * split; [exact Hf |]. split; [discriminate |].
        split; [intros _ f' [= <-] _; reflexivity |].
        intros _ [H | H]; congruence.
    + split; [discriminate |]. split; [discriminate |].
      split; [discriminate | reflexivity].
Qed.

Lemma getErrorMessage_cases_witness :
  ErrorHandler.getErrorMessage ErrorHandler.API ErrorHandler.TIMEOUT None
  = "⏰ Request timeout - We're still developing the server performance!"%string
  /\ ErrorHandler.getErrorMessage ErrorHandler.AUDIO ErrorHandler.TIMEOUT
       (Some "Audio timed out"%string) = "Audio timed out"%string
  /\ ErrorHandler.getErrorMessage ErrorHandler.AUDIO ErrorHandler.TIMEOUT (Some EmptyString)
     = ErrorHandler.general_unknown.
Proof.
  split; [| split].
  - apply (proj1 (proj2 (getErrorMessage_cases ErrorHandler.API ErrorHandler.TIMEOUT None))).
    reflexivity.
  - apply (proj1 (proj2 (proj2 (getErrorMessage_cases ErrorHandler.AUDIO ErrorHandler.TIMEOUT
                                  (Some "Audio timed out"%string))))
             eq_refl "Audio timed out"%string eq_refl).
    discriminate.
  - apply (proj2 (proj2 (proj2 (getErrorMessage_cases ErrorHandler.AUDIO ErrorHandler.TIMEOUT
                                  (Some EmptyString)))) eq_refl).
    right. reflexivity.
Defined.

(** X5. The two tables line up for four of the six types: for WebSocket, API,
    Recording and Video a pair has a specific recovery suggestion exactly when
    it has a message; for Audio and General every pair gets the generic
    suggestion. *)
Theorem getRecoverySuggestion_coverage (ty : ErrorHandler.ErrorTypes)
    (code : ErrorHandler.ErrorCode) :
  let generic := "Please try again or contact support"%string in
  match ty with
  | ErrorHandler.AUDIO | ErrorHandler.GENERAL =>
      ErrorHandler.getRecoverySuggestion ty code = generic
  | _ =>
      ErrorHandler.getRecoverySuggestion ty code <> generic
      <-> is_Some (ErrorHandler.ErrorMessages ty code)
  end.
Proof.
  destruct ty, code; cbn; try reflexivity;
    (split; [intros H; try (exfalso; apply H; reflexivity); eexists; reflexivity
            | intros [m Hm]; try discriminate Hm; discriminate]).
Qed.

(** ** WebSocketService: envelope builders and status getters *)

Lemma send_not_open (message : JSON.object) (now : string) (w : WebSocketService.t) :
  WebSocketAPI.isConnected w = false ->
  WebSocketService.send message now w = (false, w).
Proof.
  unfold WebSocketAPI.isConnected, WebSocketService.ws_readyState, WebSocketService.send.
  destruct (WebSocketService.ws w) as [i |]; [| reflexivity].
  destruct (WebSocketService.sockets w !! i) as [sock |]; [| reflexivity].
  simpl. intros ->. reflexivity.
Qed.

(** X6. None of the envelope builders transmits while the socket is not open:
    each returns false and leaves the service and its sockets as they
    were. *)
Theorem ws_builders_fail_closed (w : WebSocketService.t) :
  WebSocketAPI.isConnected w = false ->
  (forall audioData metadata t1 now,
      WebSocketAPI.sendAudio audioData metadata t1 now w = (false, w))
  /\ (forall videoFrame metadata t1 now,
         WebSocketAPI.sendVideoFrame videoFrame metadata t1 now w = (false, w))
  /\ (forall text confidence metadata t1 now,
         WebSocketAPI.sendTranscription text confidence metadata t1 now w = (false, w))
  /\ (forall settings now, WebSocketAPI.sendAudioSettings settings now w = (false, w))
  /\ (forall command data t1 now,
         WebSocketAPI.sendControl command data t1 now w = (false, w))
  /\ (forall now, WebSocketAPI.requestStatus now w = (false, w))
  /\ (forall settings t1 now, WebSocketAPI.startRecording settings t1 now w = (false, w))
  /\ (forall t1 now, WebSocketAPI.stopRecording t1 now w = (false, w))
  /\ (forall settings t1 now, WebSocketAPI.startAISession settings t1 now w = (false, w))
  /\ (forall t1 now, WebSocketAPI.stopAISession t1 now w = (false, w)).
Proof.
  intros Hclosed.
  repeat (split; [intros; apply send_not_open; exact Hclosed |]).
  intros; apply send_not_open; exact Hclosed.
Qed.

Lemma ws_builders_fail_closed_witness :
  WebSocketAPI.sendControl "start_recording" [] "2025-01-01T00:00:00.000Z"
    "2025-01-01T00:00:00.001Z" WebSocketService.constructor
  = (false, WebSocketService.constructor).
Proof.
  apply (proj1 (proj2 (proj2 (proj2 (proj2
           (ws_builders_fail_closed WebSocketService.constructor eq_refl)))))).
Defined.

Lemma isConnected_open (w : WebSocketService.t) :
  WebSocketAPI.isConnected w = true <->
  WebSocketService.ws_readyState w = Some WebSocketService.OPEN.
Proof.
  unfold WebSocketAPI.isConnected.
  destruct (WebSocketService.ws_readyState w) as [[] |]; simpl;
    split; (reflexivity || discriminate).
Qed.

Lemma disconnect_ws (w : WebSocketService.t) :
  WebSocketService.ws (WebSocketService.disconnect w) = None.
Proof.
  unfold WebSocketService.disconnect, WebSocketService.setAutoReconnect.
  cbn [WebSocketService.ws].
  destruct (WebSocketService.ws w); reflexivity.
Qed.

(** X7. The two status getters agree, and they tell whether [send] can succeed:
    [isConnected()] is true exactly when [getConnectionStatus()] is
    'connected'; a [send] that returns true was made on a connected service;
    and right after [disconnect()] the status is 'disconnected'. *)
Theorem ws_status_coherent (w : WebSocketService.t) :
  (WebSocketAPI.isConnected w = true <->
   WebSocketAPI.getConnectionStatus w = "connected"%string)
  /\ (forall message now,
         fst (WebSocketService.send message now w) = true ->
         WebSocketAPI.isConnected w = true)
  /\ WebSocketAPI.getConnectionStatus (WebSocketService.disconnect w) = "disconnected"%string
  /\ WebSocketAPI.isConnected (WebSocketService.disconnect w) = false.
Proof.
  split; [| split; [| split]].
  - unfold WebSocketAPI.isConnected, WebSocketAPI.getConnectionStatus,
      WebSocketService.ws_readyState.
    destruct (WebSocketService.ws w) as [i |]; [| split; discriminate].
    destruct (WebSocketService.sockets w !! i) as [sock |]; simpl; [| split; discriminate].
    destruct (WebSocketService.state sock); simpl; split; (reflexivity || discriminate).
  - intros message now Hsent.
    destruct (WebSocketAPI.isConnected w) eqn:Hc; [reflexivity |].
    rewrite (send_not_open message now w Hc) in Hsent. discriminate.
  - unfold WebSocketAPI.getConnectionStatus. rewrite disconnect_ws. reflexivity.
  - unfold WebSocketAPI.isConnected, WebSocketService.ws_readyState.
    rewrite disconnect_ws. reflexivity.
Qed.

Lemma get_prop_absent (k : string) (o : JSON.object) :
  k ∉ map fst o -> JSON.get_prop k o = None.
Proof.
  induction o as [| [k' v] o IH]; simpl; [reflexivity |].
  intros Hk. apply not_elem_of_cons in Hk as [Hne Hk].
  destruct (String.eqb_spec k k'); [contradiction | auto].
Qed.

(** Reading a property of [{...base, ...o}]: the spread object wins. *)
Lemma spread_get (k : string) (o base : JSON.object) :
  NoDup (map fst o) ->
  JSON.get_prop k (WebSocketAPI.spread base o) =
  match JSON.get_prop k o with
  | Some v => Some v
  | None => JSON.get_prop k base
  end.
Proof.
  unfold WebSocketAPI.spread. revert base.
  induction o as [| [k' v] o IH]; intros base Hnd; simpl; [reflexivity |].
  apply NoDup_cons in Hnd as [Hk' Hnd].
  rewrite (IH _ Hnd), get_set_prop.
  destruct (String.eqb_spec k k') as [-> | Hne]; [| reflexivity].
  rewrite (get_prop_absent k' o Hk'). reflexivity.
Qed.

(** X8. In the [data] object of a control message the caller's properties are
    spread last: a [command] or [timestamp] key in the caller's object
    replaces the command name and the clock reading, and without such keys
    the two are as [sendControl] set them. Every other key is the caller's. *)
Theorem sendControl_data_spread (command t1 : string) (data : JSON.object) :
  NoDup (map fst data) ->
  let sent := WebSocketAPI.control_data command data t1 in
  JSON.get_prop "command" sent
  = Some (default (JSON.Str command) (JSON.get_prop "command" data))
  /\ JSON.get_prop "timestamp" sent
     = Some (default (JSON.Str t1) (JSON.get_prop "timestamp" data))
  /\ (forall k, k <> "command"%string -> k <> "timestamp"%string ->
                JSON.get_prop k sent = JSON.get_prop k data).
Proof.
  intros Hnd sent. unfold sent, WebSocketAPI.control_data.
  split; [| split].
  - rewrite spread_get by exact Hnd.
    destruct (JSON.get_prop "command" data); reflexivity.
  - rewrite spread_get by exact Hnd.
    destruct (JSON.get_prop "timestamp" data); reflexivity.
  - intros k Hc Ht. rewrite spread_get by exact Hnd.
    destruct (JSON.get_prop k data); [reflexivity |]. simpl.
    destruct (String.eqb_spec k "command"); [contradiction |].
    destruct (String.eqb_spec k "timestamp"); [contradiction | reflexivity].
Qed.

Lemma sendControl_data_spread_witness :
  JSON.get_prop "command"
    (WebSocketAPI.control_data "start_recording"
       [("command", JSON.Str "stop_recording"); ("sample_rate", JSON.Number 16000)]%string
       "2025-01-01T00:00:00.000Z")
  = Some (JSON.Str "stop_recording")
  /\ JSON.get_prop "command"
       (WebSocketAPI.control_data "start_recording"
          [("sample_rate", JSON.Number 16000)]%string "2025-01-01T00:00:00.000Z")
     = Some (JSON.Str "start_recording").
Proof.
  split.
  - apply (proj1 (sendControl_data_spread "start_recording" "2025-01-01T00:00:00.000Z"
                    [("command", JSON.Str "stop_recording");
                     ("sample_rate", JSON.Number 16000)]%string
                    ltac:(compute_done))).
  - apply (proj1 (sendControl_data_spread "start_recording" "2025-01-01T00:00:00.000Z"
                    [("sample_rate", JSON.Number 16000)]%string
                    ltac:(compute_done))).
Defined.

(** X9. The metadata sent with audio and video: a key the caller supplies is
    sent as supplied, even when it is falsy (a sample rate of 0 stays 0), so
    the defaults 24000, 1, 640 and 480 and the fresh timestamp are used only
    for keys the caller's object does not have. *)
Theorem media_metadata_defaults (metadata : JSON.object) (t1 : string) :
  NoDup (map fst metadata) ->
  let audio := WebSocketAPI.audio_metadata metadata t1 in
  let video := WebSocketAPI.video_metadata metadata t1 in
  JSON.get_prop "sample_rate" audio
  = Some (default (JSON.Number 24000) (JSON.get_prop "sample_rate" metadata))
  /\ JSON.get_prop "channels" audio
     = Some (default (JSON.Number 1) (JSON.get_prop "channels" metadata))
  /\ JSON.get_prop "timestamp" audio
     = Some (default (JSON.Str t1) (JSON.get_prop "timestamp" metadata))
  /\ JSON.get_prop "width" video
     = Some (default (JSON.Number 640) (JSON.get_prop "width" metadata))
  /\ JSON.get_prop "height" video
     = Some (default (JSON.Number 480) (JSON.get_prop "height" metadata))
  /\ JSON.get_prop "timestamp" video
     = Some (default (JSON.Str t1) (JSON.get_prop "timestamp" metadata)).
Proof.
  intros Hnd audio video.
  unfold audio, video, WebSocketAPI.audio_metadata, WebSocketAPI.video_metadata,
    WebSocketAPI.or_default.
  repeat split; rewrite spread_get by exact Hnd.
  - destruct (JSON.get_prop "sample_rate" metadata); reflexivity.
  - destruct (JSON.get_prop "channels" metadata); reflexivity.
  - destruct (JSON.get_prop "timestamp" metadata); reflexivity.
  - destruct (JSON.get_prop "width" metadata); reflexivity.
  - destruct (JSON.get_prop "height" metadata); reflexivity.
  - destruct (JSON.get_prop "timestamp" metadata); reflexivity.
Qed.

Lemma media_metadata_defaults_witness :
  JSON.get_prop "sample_rate"
    (WebSocketAPI.audio_metadata [("sample_rate", JSON.Number 0)]%string
       "2025-01-01T00:00:00.000Z")
  = Some (JSON.Number 0)
  /\ JSON.get_prop "channels"
       (WebSocketAPI.audio_metadata [("sample_rate", JSON.Number 0)]%string
          "2025-01-01T00:00:00.000Z")
     = Some (JSON.Number 1).
Proof.
  pose proof (media_metadata_defaults [("sample_rate", JSON.Number 0)]%string
                "2025-01-01T00:00:00.000Z" ltac:(compute_done)) as H.
  split; [exact (proj1 H) | exact (proj1 (proj2 H))].
Defined.

(** ** WebSocketService: handler registries *)

(** X10. Message dispatch follows the last registration for the message's type:
    after [onMessage(type, h)] a message of that type goes to [h], whatever
    was registered before; after [removeMessageHandler(type)] it goes to no
    handler; registrations and removals for one type leave every other type
    alone; and a message whose type is not a registered string is dropped. *)
Theorem message_dispatch (r : WebSocketHandlers.t) (ty : string) (h : nat)
    (m : WebSocketHandlers.message) :
  (WebSocketHandlers.msg_type m = Some ty ->
   WebSocketHandlers.handleMessage m (WebSocketHandlers.onMessage ty h r)
   = Some (h, WebSocketHandlers.msg_data m)
   /\ WebSocketHandlers.handleMessage m (WebSocketHandlers.removeMessageHandler ty r) = None)
  /\ (WebSocketHandlers.msg_type m <> Some ty ->
      WebSocketHandlers.handleMessage m (WebSocketHandlers.onMessage ty h r)
      = WebSocketHandlers.handleMessage m r
      /\ WebSocketHandlers.handleMessage m (WebSocketHandlers.removeMessageHandler ty r)
         = WebSocketHandlers.handleMessage m r)
  /\ WebSocketHandlers.handleMessage m WebSocketHandlers.constructor = None.
Proof.
  unfold WebSocketHandlers.handleMessage, WebSocketHandlers.onMessage,
    WebSocketHandlers.removeMessageHandler; simpl.
  split; [| split].
  - intros ->. rewrite lookup_insert_eq, lookup_delete_eq. auto.
  - intros Hne. destruct (WebSocketHandlers.msg_type m) as [ty' |]; [| auto].
    assert (ty <> ty') by congruence.
    rewrite lookup_insert_ne, lookup_delete_ne by assumption. auto.
  - destruct (WebSocketHandlers.msg_type m); reflexivity.
Qed.

Lemma message_dispatch_witness :
  let m := {| WebSocketHandlers.msg_type := Some "transcription"%string;
              WebSocketHandlers.msg_data := JSON.Str "hello" |} in
  let r := WebSocketHandlers.onMessage "transcription" 1 WebSocketHandlers.constructor in
  WebSocketHandlers.handleMessage m (WebSocketHandlers.onMessage "transcription" 2 r)
  = Some (2%nat, JSON.Str "hello")
  /\ WebSocketHandlers.handleMessage m (WebSocketHandlers.onMessage "sentiment" 3 r)
     = Some (1%nat, JSON.Str "hello").
Proof.
  intros m r. split.
  - apply (proj1 (message_dispatch r "transcription" 2 m)). reflexivity.
  - rewrite (proj1 (proj1 (proj2 (message_dispatch r "sentiment" 3 m))
                      ltac:(discriminate))).
    reflexivity.
Defined.

Lemma remove_first_absent (h : nat) (l : list nat) :
  h ∉ l -> WebSocketHandlers.remove_first h l = l.
Proof.
  induction l as [| x l IH]; simpl; [reflexivity |].
  intros Hh. apply not_elem_of_cons in Hh as [Hne Hh].
  destruct (Nat.eqb_spec x h); [congruence | rewrite IH; auto].
Qed.

Lemma remove_first_present (h : nat) (l : list nat) :
  h ∈ l ->
  exists l1 l2, l = l1 ++ (h :: l2) /\ (h ∉ l1) /\ WebSocketHandlers.remove_first h l = l1 ++ l2.
Proof.
  induction l as [| x l IH]; simpl; [intros H; inversion H |].
  intros Hh. destruct (Nat.eqb_spec x h) as [-> | Hne].
  - exists [], l. repeat split. apply not_elem_of_nil.
  - apply elem_of_cons in Hh as [-> | Hh]; [congruence |].
    destruct (IH Hh) as (l1 & l2 & -> & Hl1 & ->).
    exists (x :: l1), l2. repeat split.
    apply not_elem_of_cons. auto.
Qed.

(** X11. Connection handlers are kept per status in registration order.
    [onConnection] adds the handler at the end, so it is called last;
    [removeConnectionHandler] takes out the first registration of the handler
    and nothing else, and does nothing when the handler is not registered
    for that status; both leave the other statuses alone. *)
Theorem connection_handlers_order (r : WebSocketHandlers.t) (ty : string) (h : nat)
    (sid : option string) :
  let calls r := WebSocketHandlers.notifyConnectionHandlers ty sid r in
  calls (WebSocketHandlers.onConnection ty h r) = calls r ++ [(h, sid)]
  /\ ((h, sid) ∉ calls r ->
      calls (WebSocketHandlers.removeConnectionHandler ty h r) = calls r)
  /\ ((h, sid) ∈ calls r ->
      exists before after,
        calls r = before ++ ((h, sid) :: after) /\
        ((h, sid) ∉ before) /\
        calls (WebSocketHandlers.removeConnectionHandler ty h r) = before ++ after)
  /\ (forall ty', ty' <> ty ->
        WebSocketHandlers.notifyConnectionHandlers ty' sid
          (WebSocketHandlers.onConnection ty h r)
        = WebSocketHandlers.notifyConnectionHandlers ty' sid r
        /\ WebSocketHandlers.notifyConnectionHandlers ty' sid
             (WebSocketHandlers.removeConnectionHandler ty h r)
           = WebSocketHandlers.notifyConnectionHandlers ty' sid r).
Proof.
  cbn zeta.
  unfold WebSocketHandlers.notifyConnectionHandlers, WebSocketHandlers.onConnection,
    WebSocketHandlers.removeConnectionHandler; simpl.
  assert (Hmem : forall l : list nat, (h, sid) ∈ map (fun x => (x, sid)) l <-> h ∈ l).
  { intros l. induction l as [| x l IH]; simpl.
    - split; intros H; inversion H.
    - rewrite !elem_of_cons, IH. split; intros [H | H]; auto; left; congruence. }
  split; [| split; [| split]].
  - rewrite lookup_insert_eq.
    destruct (WebSocketHandlers.connectionHandlers r !! ty) as [l |]; simpl.
    + rewrite map_app. reflexivity.
    + reflexivity.
  - destruct (WebSocketHandlers.connectionHandlers r !! ty) as [l |] eqn:Hl;
      [| rewrite Hl; reflexivity].
    rewrite lookup_insert_eq. intros Hh.
    rewrite remove_first_absent; [reflexivity |].
    intros Hin. apply Hh, Hmem, Hin.
  - destruct (WebSocketHandlers.connectionHandlers r !! ty) as [l |] eqn:Hl;
      [| intros H; inversion H].
    rewrite lookup_insert_eq. intros Hh. apply Hmem in Hh.
    destruct (remove_first_present h l Hh) as (l1 & l2 & -> & Hl1 & ->).
    exists (map (fun x => (x, sid)) l1), (map (fun x => (x, sid)) l2).
    rewrite !map_app. simpl. repeat split.
    intros Hin. apply Hl1, Hmem, Hin.
  - intros ty' Hne.
    assert (ty <> ty') by congruence.
    rewrite lookup_insert_ne by assumption.
    destruct (WebSocketHandlers.connectionHandlers r !! ty) as [l |];
      [rewrite lookup_insert_ne by assumption |]; auto.
Qed.

Lemma connection_handlers_order_witness :
  let r := WebSocketHandlers.onConnection "connected" 2
             (WebSocketHandlers.onConnection "connected" 1
                (WebSocketHandlers.onConnection "connected" 2
                   WebSocketHandlers.constructor)) in
  WebSocketHandlers.notifyConnectionHandlers "connected" None
    (WebSocketHandlers.removeConnectionHandler "connected" 3 r)
  = [(2%nat, None); (1%nat, None); (2%nat, None)].
Proof.
  intros r.
  rewrite (proj1 (proj2 (connection_handlers_order r "connected" 3 None))
             ltac:(compute_done)).
  reflexivity.
Defined.

(** Removing a handler registered twice leaves its second registration. *)
Example remove_handler_registered_twice :
  let r := WebSocketHandlers.onConnection "connected" 2
             (WebSocketHandlers.onConnection "connected" 1
                (WebSocketHandlers.onConnection "connected" 2
                   WebSocketHandlers.constructor)) in
  WebSocketHandlers.notifyConnectionHandlers "connected" None
    (WebSocketHandlers.removeConnectionHandler "connected" 2 r)
  = [(1%nat, None); (2%nat, None)].
Proof. reflexivity. Qed.

(** ** WebSocketService: connecting *)

(** X12. While a connection attempt is under way, further calls of [connect] do
    nothing: whatever their arguments, no second socket is created and the
    session id is not replaced. *)
Theorem connect_twice (sid sid' : option string) (generated generated' : string)
    (c' : WebSocketService.ctor_outcome) (w : WebSocketService.t) :
  let w1 := WebSocketService.connect sid generated WebSocketService.Created w in
  WebSocketService.connect sid' generated' c' w1 = w1.
Proof.
  intros w1.
  assert (Hbusy : WebSocketService.isConnecting w1 || WebSocketService.ws_is_open w1 = true).
  { unfold w1, WebSocketService.connect.
    destruct (WebSocketService.isConnecting w || WebSocketService.ws_is_open w) eqn:Hguard;
      [exact Hguard | reflexivity]. }
  unfold WebSocketService.connect at 1. rewrite Hbusy. reflexivity.
Qed.

Lemma urls_alter (f : WebSocketService.WebSocket -> WebSocketService.WebSocket)
    (i : nat) (l : list WebSocketService.WebSocket) :
  (forall sock, WebSocketService.url (f sock) = WebSocketService.url sock) ->
  map WebSocketService.url (alter f i l) = map WebSocketService.url l.
Proof.
  intros Hf. revert i. induction l as [| x l IH]; intros [| i]; simpl; try reflexivity.
  - now rewrite Hf.
  - f_equal. apply IH.
Qed.

Lemma urls_insert (x sock : WebSocketService.WebSocket) (i : nat)
    (l : list WebSocketService.WebSocket) :
  l !! i = Some sock ->
  WebSocketService.url x = WebSocketService.url sock ->
  map WebSocketService.url (<[i := x]> l) = map WebSocketService.url l.
Proof.
  revert i. induction l as [| y l IH]; intros [| i]; simpl; try discriminate.
  - intros [= ->] ->. reflexivity.
  - intros Hl Hx. f_equal. apply IH; assumption.
Qed.

Lemma send_urls (message : JSON.object) (now : string) (w : WebSocketService.t) :
  map WebSocketService.url (WebSocketService.sockets (WebSocketService.send message now w).2)
  = map WebSocketService.url (WebSocketService.sockets w)
  /\ WebSocketService.sessionId (WebSocketService.send message now w).2
     = WebSocketService.sessionId w.
Proof.
  unfold WebSocketService.send.
  destruct (WebSocketService.ws w) as [i |]; [| auto].
  destruct (WebSocketService.sockets w !! i) as [sock |] eqn:Hsock; [| auto].
  destruct (WebSocketService.readyState_eqb (WebSocketService.state sock)
              WebSocketService.OPEN); [| auto].
  destruct (JSON.stringify _); [| auto].
  simpl. split; [| reflexivity].
  apply (urls_insert _ sock); [exact Hsock | reflexivity].
Qed.

(** One event other than a call of [connect], on a service with a session
    id: the id stays, and the sockets are those there were, plus at most one
    new socket for the same session. *)
Lemma step_session (e : WebSocketService.event) (w : WebSocketService.t) (s : string) :
  WebSocketService.is_connect_call e = false ->
  WebSocketService.sessionId w = Some s ->
  s <> EmptyString ->
  let w' := WebSocketService.step e w in
  WebSocketService.sessionId w' = Some s
  /\ (map WebSocketService.url (WebSocketService.sockets w')
      = map WebSocketService.url (WebSocketService.sockets w)
      \/ map WebSocketService.url (WebSocketService.sockets w')
         = map WebSocketService.url (WebSocketService.sockets w)
             ++ [("ws://localhost:8000/ws/" ++ s)%string]).
Proof.
  intros He Hsid Hs.
  assert (Hgen : forall g, WebSocketService.or_generated (Some s) g = s).
  { intros g. simpl. destruct (String.eqb_spec s EmptyString); [contradiction | reflexivity]. }
  destruct e as [sid0 g0 c0 | message now | | enabled | i t1 t2 | i | i | i data | k g c];
    try discriminate He; cbn zeta; cbn [WebSocketService.step].
  - destruct (send_urls message now w) as [-> ->]. auto.
  - unfold WebSocketService.disconnect, WebSocketService.close_socket.
    cbn [WebSocketService.ws WebSocketService.sessionId WebSocketService.sockets
         WebSocketService.setAutoReconnect WebSocketService.set_isConnecting
         WebSocketService.notifyConnectionHandlers].
    destruct (WebSocketService.ws w) as [i |]; simpl; [| auto].
    destruct (WebSocketService.sockets w !! i) as [sock |] eqn:Hsock; simpl; [| auto].
    destruct (WebSocketService.state sock); simpl; auto;
      (split; [exact Hsid |]; left; apply (urls_insert _ sock); auto).
  - simpl. auto.
  - unfold WebSocketService.onopen.
    match goal with
    | |- context [WebSocketService.send ?m ?n ?x] =>
        destruct (send_urls m n x) as [-> ->]
    end.
    simpl. split; [exact Hsid |]. left. apply urls_alter. reflexivity.
  - unfold WebSocketService.onclose, WebSocketService.scheduleReconnect.
    cbn [WebSocketService.autoReconnect WebSocketService.reconnectAttempts
         WebSocketService.maxReconnectAttempts WebSocketService.platform_state
         WebSocketService.set_sockets WebSocketService.set_isConnecting
         WebSocketService.notifyConnectionHandlers].
    match goal with
    | |- context [if ?b then _ else _] => destruct b
    end; simpl; (split; [exact Hsid |]; left; apply urls_alter; reflexivity).
  - simpl. auto.
  - auto.
  - destruct (WebSocketService.timeouts w !! k); [| auto].
    unfold WebSocketService.reconnect_callback, WebSocketService.connect.
    cbn [WebSocketService.autoReconnect WebSocketService.isConnecting
         WebSocketService.sessionId WebSocketService.set_timeouts].
    rewrite Hsid, Hgen.
    repeat match goal with
           | |- context [if ?b then _ else _] => destruct b
           end; simpl;
      first [ solve [auto]
            | split; [reflexivity |]; right; rewrite map_app; reflexivity ].
Qed.

(** X13. Automatic reconnection resumes the same session. Once the service has a
    session id, no sequence of events and calls other than [connect] changes
    it, not even [disconnect], and every socket created meanwhile is opened
    on the URL of that session. *)
Theorem reconnect_keeps_session (es : list WebSocketService.event)
    (w : WebSocketService.t) (s : string) :
  WebSocketService.sessionId w = Some s ->
  s <> EmptyString ->
  forallb (fun e => negb (WebSocketService.is_connect_call e)) es = true ->
  let w' := WebSocketService.run es w in
  WebSocketService.sessionId w' = Some s
  /\ exists n,
       map WebSocketService.url (WebSocketService.sockets w')
       = map WebSocketService.url (WebSocketService.sockets w)
           ++ replicate n ("ws://localhost:8000/ws/" ++ s)%string.
Proof.
  revert w. induction es as [| e es IH]; intros w Hsid Hs Hes.
  - simpl. split; [exact Hsid |]. exists 0%nat. simpl. now rewrite app_nil_r.
  - simpl in Hes. apply andb_true_iff in Hes as [He Hes].
    apply negb_true_iff in He.
    destruct (step_session e w s He Hsid Hs) as [Hsid' Hurls].
    destruct (IH (WebSocketService.step e w) Hsid' Hs Hes) as [Hfin [n Hn]].
    rewrite run_cons. split; [exact Hfin |].
    destruct Hurls as [Hsame | Hnew].
    + exists n. rewrite Hn, Hsame. reflexivity.
    + exists (S n). rewrite Hn, Hnew, <- app_assoc. reflexivity.
Qed.

Lemma reconnect_keeps_session_witness :
  let w := WebSocketService.connect (Some "session_1"%string) "session_0_abc"
             WebSocketService.Created WebSocketService.constructor in
  let es := [WebSocketService.Socket_close 0;
             WebSocketService.Timeout 0 "session_9_xyz" WebSocketService.Created] in
  WebSocketService.sessionId (WebSocketService.run es w) = Some "session_1"%string
  /\ map WebSocketService.url (WebSocketService.sockets (WebSocketService.run es w))
     = ["ws://localhost:8000/ws/session_1"; "ws://localhost:8000/ws/session_1"]%string.
Proof.
  intros w es.
  split.
  - apply (proj1 (reconnect_keeps_session es w "session_1" eq_refl
                    ltac:(discriminate) eq_refl)).
  - reflexivity.
Defined.

(** X14. After a successful connection the backoff starts over: in any reachable
    state that an open event has just produced, the next close event (with
    reconnection on) schedules a timer of 1000 ms and counts attempt 1,
    however many attempts went before. *)
Theorem backoff_restarts_after_open (es : list WebSocketService.event) (i j : nat)
    (t1 t2 : string) :
  let w := WebSocketService.run (es ++ [WebSocketService.Socket_open i t1 t2])
             WebSocketService.constructor in
  WebSocketService.autoReconnect w = true ->
  WebSocketService.reconnectAttempts w = 0
  /\ WebSocketService.scheduled (WebSocketService.step (WebSocketService.Socket_close j) w)
     = WebSocketService.scheduled w ++ [1000]
  /\ WebSocketService.reconnectAttempts
       (WebSocketService.step (WebSocketService.Socket_close j) w) = 1.
Proof.
  intros w Hauto.
  destruct (run_policy (es ++ [WebSocketService.Socket_open i t1 t2])
              WebSocketService.constructor) as [Hd Hm].
  fold w in Hd, Hm. simpl in Hd, Hm.
  assert (Hzero : WebSocketService.reconnectAttempts w = 0).
  { unfold w, WebSocketService.run. rewrite foldl_app. simpl.
    destruct (step_attempts (WebSocketService.Socket_open i t1 t2)
                (foldl (fun w e => WebSocketService.step e w)
                   WebSocketService.constructor es))
      as [([k Hk] & _) | [(_ & H0 & _) | (Ho & _)]];
      [discriminate Hk | exact H0 | discriminate Ho]. }
  split; [exact Hzero |].
  destruct (step_attempts (WebSocketService.Socket_close j) w)
    as [(_ & _ & _ & Ha & Hs & _) | [(Ho & _) | (_ & _ & _ & [Hne | [Hoff | Hcap]])]].
  - rewrite Ha, Hs, Hd, Hzero. auto.
  - discriminate Ho.
  - exfalso. apply (Hne j). reflexivity.
  - congruence.
  - lia.
Qed.

Lemma backoff_restarts_after_open_witness :
  let timer := WebSocketService.Timeout 0 "session_0_abc" WebSocketService.Created in
  let es := [WebSocketService.Call_connect (Some "session_1"%string) "session_0_abc"
               WebSocketService.Created;
             WebSocketService.Socket_close 0; timer;
             WebSocketService.Socket_close 1; timer] in
  let w := WebSocketService.run
             (es ++ [WebSocketService.Socket_open 2 "2025-01-01T00:00:00.000Z"
                       "2025-01-01T00:00:00.001Z"])
             WebSocketService.constructor in
  WebSocketService.scheduled w = [1000; 2000]
  /\ WebSocketService.scheduled (WebSocketService.step (WebSocketService.Socket_close 2) w)
     = [1000; 2000; 1000].
Proof.
  intros timer es w. split; [reflexivity |].
  apply (proj1 (proj2 (backoff_restarts_after_open es 2 2 "2025-01-01T00:00:00.000Z"
                         "2025-01-01T00:00:00.001Z" eq_refl))).
Defined.

(** ** VideoService: life cycle *)

Lemma video_run_cons (c : VideoLifecycle.call) (cs : list VideoLifecycle.call)
    (s : VideoLifecycle.service) :
  VideoLifecycle.run (c :: cs) s = VideoLifecycle.run cs (VideoLifecycle.step c s).
Proof. reflexivity. Qed.

Ltac video_unfold :=
  unfold VideoLifecycle.step, VideoLifecycle.initialize, VideoLifecycle.startVideo,
    VideoLifecycle.stopVideo, VideoLifecycle.updateSettings,
    VideoLifecycle.switchVideoDevice, VideoLifecycle.cleanup,
    VideoLifecycle.apply_options, VideoLifecycle.with_core, VideoLifecycle.with_stream,
    VideoLifecycle.set_isStreaming, VideoLifecycle.set_frameInterval,
    VideoLifecycle.set_canvas, VideoService.updateSettings, VideoService.startFrameCapture,
    VideoService.set_frameRate, VideoService.set_quality, VideoService.set_width,
    VideoService.set_height in *.

Ltac video_cases :=
  repeat (cbn [VideoLifecycle.core VideoLifecycle.stream VideoService.canvas_
               VideoService.isStreaming VideoService.frameInterval VideoService.frameRate
               VideoService.quality VideoService.width VideoService.height
               VideoService.canvas_width VideoService.canvas_height fst snd negb] in *;
          match goal with
          | |- context [match ?x with _ => _ end] => destruct x eqn:?
          end);
  cbn [VideoLifecycle.core VideoLifecycle.stream VideoService.canvas_
       VideoService.isStreaming VideoService.frameInterval VideoService.frameRate
       VideoService.quality VideoService.width VideoService.height
       VideoService.canvas_width VideoService.canvas_height fst snd negb] in *.

Lemma step_timer (c : VideoLifecycle.call) (s : VideoLifecycle.service) :
  VideoLifecycle.writes_frameRate_raw c = false
  \/ VideoService.isStreaming (VideoLifecycle.core s) = false ->
  VideoService.frameInterval (VideoLifecycle.core s)
  = (if VideoService.isStreaming (VideoLifecycle.core s)
     then Some (VideoService.frameRate (VideoLifecycle.core s)) else None) ->
  VideoService.frameInterval (VideoLifecycle.core (VideoLifecycle.step c s))
  = (if VideoService.isStreaming (VideoLifecycle.core (VideoLifecycle.step c s))
     then Some (VideoService.frameRate (VideoLifecycle.core (VideoLifecycle.step c s)))
     else None).
Proof.
  intros Hsafe Hinv.
  destruct (VideoService.isStreaming (VideoLifecycle.core s)) eqn:Hs;
    destruct c; cbn [VideoLifecycle.writes_frameRate_raw] in Hsafe;
    video_unfold; video_unfold; rewrite ?Hs, ?Hinv; video_cases;
    rewrite ?Hs, ?Hinv in *; try congruence; destruct Hsafe; congruence.
Qed.

Lemma step_initialize_idle (c : VideoLifecycle.call) (s : VideoLifecycle.service) :
  VideoLifecycle.is_initialize c = true ->
  VideoService.isStreaming (VideoLifecycle.core (VideoLifecycle.step c s))
  = VideoService.isStreaming (VideoLifecycle.core s).
Proof.
  destruct c; try discriminate. intros _. reflexivity.
Qed.

(** X15. The capture timer runs exactly while the service is streaming, and at
    the current frame rate: this holds after any calls of [initialize]
    followed by any calls of [startVideo], [stopVideo], [updateSettings],
    [switchVideoDevice], [cleanup] and of [initialize] without a frame rate,
    whatever the camera answers. ([initialize] with a frame rate during
    streaming changes the rate and leaves the running timer alone.) *)
Theorem video_timer_follows_streaming (inits rest : list VideoLifecycle.call) :
  forallb VideoLifecycle.is_initialize inits = true ->
  forallb (fun c => negb (VideoLifecycle.writes_frameRate_raw c)) rest = true ->
  let v := VideoLifecycle.core
             (VideoLifecycle.run (inits ++ rest) VideoLifecycle.constructor) in
  VideoService.frameInterval v
  = if VideoService.isStreaming v then Some (VideoService.frameRate v) else None.
Proof.
  intros Hinits Hrest. cbn zeta.
  unfold VideoLifecycle.run. rewrite foldl_app.
  fold (VideoLifecycle.run inits VideoLifecycle.constructor).
  assert (Hstart : forall s,
             VideoService.isStreaming (VideoLifecycle.core s) = false ->
             VideoService.frameInterval (VideoLifecycle.core s) = None ->
             VideoService.isStreaming (VideoLifecycle.core (VideoLifecycle.run inits s)) = false
             /\ VideoService.frameInterval
                  (VideoLifecycle.core (VideoLifecycle.run inits s)) = None).
  { induction inits as [| c cs IH]; intros s Hs Hi; [auto |].
    simpl in Hinits. apply andb_true_iff in Hinits as [Hc Hcs].
    rewrite video_run_cons. apply (IH Hcs).
    - rewrite step_initialize_idle; assumption.
    - destruct c; try discriminate. exact Hi. }
  destruct (Hstart VideoLifecycle.constructor eq_refl eq_refl) as [Hidle Hnone].
  assert (Hinv : VideoService.frameInterval
                   (VideoLifecycle.core (VideoLifecycle.run inits VideoLifecycle.constructor))
                 = if VideoService.isStreaming
                        (VideoLifecycle.core
                           (VideoLifecycle.run inits VideoLifecycle.constructor))
                   then Some (VideoService.frameRate
                                (VideoLifecycle.core
                                   (VideoLifecycle.run inits VideoLifecycle.constructor)))
                   else None).
  { rewrite Hidle. exact Hnone. }
  clear Hstart Hidle Hnone Hinits.
  generalize dependent (VideoLifecycle.run inits VideoLifecycle.constructor).
  induction rest as [| c cs IH]; intros s Hinv; [exact Hinv |].
  simpl in Hrest. apply andb_true_iff in Hrest as [Hc Hcs].
  apply negb_true_iff in Hc.
  simpl. apply (IH Hcs). apply step_timer; auto.
Qed.

Lemma video_timer_follows_streaming_witness :
  let thirty := {| VideoService.s_frameRate := Some (JSNumber.Fin 15);
                   VideoService.s_quality := None;
                   VideoService.s_width := None;
                   VideoService.s_height := None |} in
  let sixty := {| VideoService.s_frameRate := Some (JSNumber.Fin 60);
                  VideoService.s_quality := None;
                  VideoService.s_width := None;
                  VideoService.s_height := None |} in
  let v := VideoLifecycle.core
             (VideoLifecycle.run
                ([VideoLifecycle.Initialize thirty]
                   ++ [VideoLifecycle.StartVideo VideoLifecycle.Granted;
                       VideoLifecycle.UpdateSettings sixty])
                VideoLifecycle.constructor) in
  VideoService.isStreaming v = true /\
  VideoService.frameInterval v = Some (JSNumber.Fin 60).
Proof.
  intros thirty sixty v. split; [reflexivity |].
  exact (video_timer_follows_streaming [VideoLifecycle.Initialize thirty]
           [VideoLifecycle.StartVideo VideoLifecycle.Granted;
            VideoLifecycle.UpdateSettings sixty] eq_refl eq_refl).
Defined.

(** For contrast: [initialize] with a frame rate while streaming leaves the
    timer at the old rate. *)
Example initialize_while_streaming :
  let sixty := {| VideoService.s_frameRate := Some (JSNumber.Fin 60);
                  VideoService.s_quality := None;
                  VideoService.s_width := None;
                  VideoService.s_height := None |} in
  let v := VideoLifecycle.core
             (VideoLifecycle.run
                [VideoLifecycle.StartVideo VideoLifecycle.Granted;
                 VideoLifecycle.Initialize sixty]
                VideoLifecycle.constructor) in
  VideoService.frameRate v = JSNumber.Fin 60 /\
  VideoService.frameInterval v = Some (JSNumber.Fin 30).
Proof. split; reflexivity. Qed.





Lemma core_update_quality (x : VideoService.settings) (v : VideoService.t) :
  VideoService.quality (VideoService.updateSettings x v) =
  if VideoService.present (VideoService.s_quality x)
  then JSNumber.Math_max (JSNumber.Fin JSNumber.lit_0_1)
         (JSNumber.Math_min (JSNumber.Fin JSNumber.lit_1_0)
            (VideoService.get (VideoService.s_quality x) JSNumber.NaN))
  else VideoService.quality v.
Proof.
  unfold VideoService.updateSettings.
  destruct (VideoService.present (VideoService.s_frameRate x));
    destruct (VideoService.present (VideoService.s_quality x));
    destruct (VideoService.present (VideoService.s_width x));
    destruct (VideoService.present (VideoService.s_height x));
    cbn; destruct (VideoService.isStreaming v); reflexivity.
Qed.

Lemma clamp_in_range (x : JSNumber.number) :
  JSNumber.truthy x = true ->
  exists q,
    JSNumber.Math_max (JSNumber.Fin JSNumber.lit_0_1)
      (JSNumber.Math_min (JSNumber.Fin JSNumber.lit_1_0) x) = JSNumber.Fin q
    /\ (JSNumber.lit_0_1 <= q)%Q /\ (q <= JSNumber.lit_1_0)%Q.
Proof.
  assert (Hlit : (JSNumber.lit_0_1 <= JSNumber.lit_1_0)%Q)
    by (unfold Qle; simpl; lia).
  destruct x as [| | q |]; intros Ht; try discriminate.
  - exists JSNumber.lit_0_1. split; [reflexivity |]. split; [apply Qle_refl | exact Hlit].
  - exists (Qmax JSNumber.lit_0_1 (Qmin JSNumber.lit_1_0 q)).
    rewrite Math_min_Qmin, Math_max_Qmax.
    split; [reflexivity |]. split.
    + apply Q.le_max_l.
    + apply Q.max_lub; [exact Hlit | apply Q.le_min_l].
  - exists JSNumber.lit_1_0. split; [reflexivity |]. split; [exact Hlit | apply Qle_refl].
Qed.

Lemma step_quality (c : VideoLifecycle.call) (s : VideoLifecycle.service) :
  VideoLifecycle.writes_quality_raw c = false ->
  (exists q, VideoService.quality (VideoLifecycle.core s) = JSNumber.Fin q
             /\ (JSNumber.lit_0_1 <= q)%Q /\ (q <= JSNumber.lit_1_0)%Q) ->
  exists q, VideoService.quality (VideoLifecycle.core (VideoLifecycle.step c s))
            = JSNumber.Fin q
            /\ (JSNumber.lit_0_1 <= q)%Q /\ (q <= JSNumber.lit_1_0)%Q.
Proof.
  intros Hraw Hinv.
  destruct c as [options | cam | | x | cam |].
  - cbn in Hraw |- *. rewrite Hraw. exact Hinv.
  - cbn [VideoLifecycle.step]. unfold VideoLifecycle.startVideo.
    destruct (VideoService.isStreaming (VideoLifecycle.core s)); [exact Hinv |].
    destruct cam; exact Hinv.
  - cbn [VideoLifecycle.step]. unfold VideoLifecycle.stopVideo.
    destruct (VideoService.isStreaming (VideoLifecycle.core s)); [| exact Hinv].
    cbn. destruct (VideoService.frameInterval (VideoLifecycle.core s)); exact Hinv.
  - cbn. rewrite core_update_quality.
    destruct (VideoService.present (VideoService.s_quality x)) eqn:Hp; [| exact Hinv].
    apply clamp_in_range.
    unfold VideoService.present in Hp.
    destruct (VideoService.s_quality x); [exact Hp | discriminate].
  - cbn [VideoLifecycle.step]. unfold VideoLifecycle.switchVideoDevice.
    destruct (VideoLifecycle.stream s), cam; exact Hinv.
  - cbn [VideoLifecycle.step]. unfold VideoLifecycle.cleanup, VideoLifecycle.stopVideo.
    destruct (VideoService.isStreaming (VideoLifecycle.core s)); [| exact Hinv].
    cbn. destruct (VideoService.frameInterval (VideoLifecycle.core s)); exact Hinv.
Qed.

Lemma run_quality (cs : list VideoLifecycle.call) (s : VideoLifecycle.service) :
  forallb (fun c => negb (VideoLifecycle.writes_quality_raw c)) cs = true ->
  (exists q, VideoService.quality (VideoLifecycle.core s) = JSNumber.Fin q
             /\ (JSNumber.lit_0_1 <= q)%Q /\ (q <= JSNumber.lit_1_0)%Q) ->
  exists q, VideoService.quality (VideoLifecycle.core (VideoLifecycle.run cs s))
            = JSNumber.Fin q
            /\ (JSNumber.lit_0_1 <= q)%Q /\ (q <= JSNumber.lit_1_0)%Q.
Proof.
  revert s. induction cs as [| c cs IH]; intros s Hcs Hinv; [exact Hinv |].
  simpl in Hcs. apply andb_true_iff in Hcs as [Hc Hcs].
  apply negb_true_iff in Hc.
  rewrite video_run_cons. apply (IH _ Hcs). apply step_quality; assumption.
Qed.

(** X17. The stored quality stays a finite number between 0.1 and 1.0 through any
    sequence of calls in which [initialize] is not given a quality: the
    constructor starts it at 0.8 and [updateSettings] only ever stores a
    clamped value. ([initialize] stores its quality option as given.) *)
Theorem video_quality_in_range (cs : list VideoLifecycle.call) :
  forallb (fun c => negb (VideoLifecycle.writes_quality_raw c)) cs = true ->
  exists q,
    VideoLifecycle.view_quality
      (VideoLifecycle.getSettings (VideoLifecycle.run cs VideoLifecycle.constructor))
    = JSNumber.Fin q
    /\ (JSNumber.lit_0_1 <= q)%Q /\ (q <= JSNumber.lit_1_0)%Q.
Proof.
  intros Hcs. cbn [VideoLifecycle.getSettings VideoLifecycle.view_quality].
  apply run_quality; [exact Hcs |].
  exists JSNumber.lit_0_8. split; [reflexivity |].
  split; unfold Qle; simpl; lia.
Qed.

Lemma video_quality_in_range_witness :
  let q5 := {| VideoService.s_frameRate := None;
               VideoService.s_quality := Some (JSNumber.Fin 5);
               VideoService.s_width := None;
               VideoService.s_height := None |} in
  exists q,
    VideoLifecycle.view_quality
      (VideoLifecycle.getSettings
         (VideoLifecycle.run [VideoLifecycle.UpdateSettings q5;
                              VideoLifecycle.StartVideo VideoLifecycle.Granted]
            VideoLifecycle.constructor))
    = JSNumber.Fin q
    /\ (JSNumber.lit_0_1 <= q)%Q /\ (q <= JSNumber.lit_1_0)%Q.
Proof.
  intros q5.
  exact (video_quality_in_range [VideoLifecycle.UpdateSettings q5;
                                 VideoLifecycle.StartVideo VideoLifecycle.Granted] eq_refl).
Defined.

(** X18. Starting and stopping are inverse on an idle service (not streaming, no
    timer, no stream): [startVideo] with the camera granted returns true, a
    second [startVideo] returns false without asking again, [stopVideo] then
    returns true and restores the idle state exactly, and [stopVideo] on the
    idle service returns false and changes nothing; a denied camera throws and
    leaves the service idle. *)
Theorem video_start_stop (s : VideoLifecycle.service) :
  VideoService.isStreaming (VideoLifecycle.core s) = false ->
  VideoService.frameInterval (VideoLifecycle.core s) = None ->
  VideoLifecycle.stream s = None ->
  let started := VideoLifecycle.startVideo VideoLifecycle.Granted s in
  fst started = VideoLifecycle.Returned true
  /\ VideoService.isStreaming (VideoLifecycle.core (snd started)) = true
  /\ VideoLifecycle.stream (snd started) = Some true
  /\ (forall c, VideoLifecycle.startVideo c (snd started)
                = (VideoLifecycle.Returned false, snd started))
  /\ VideoLifecycle.stopVideo (snd started) = (VideoLifecycle.Returned true, s)
  /\ VideoLifecycle.stopVideo s = (VideoLifecycle.Returned false, s)
  /\ VideoLifecycle.startVideo VideoLifecycle.Denied s = (VideoLifecycle.Thrown, s).
Proof.
  destruct s as [[cv streaming timer rate q w h] el cx st cb].
  cbn. intros -> -> ->. cbn. repeat split.
Qed.

Lemma video_start_stop_witness :
  let s := VideoLifecycle.constructor in
  VideoLifecycle.stopVideo (snd (VideoLifecycle.startVideo VideoLifecycle.Granted s))
  = (VideoLifecycle.Returned true, s).
Proof.
  intros s.
  apply (proj1 (proj2 (proj2 (proj2 (proj2
           (video_start_stop s eq_refl eq_refl eq_refl)))))).
Defined.

(** ** AudioService: edge cases of the gate *)

Lemma SFcompare_refl (f : spec_float) :
  f <> S754_nan -> SFcompare f f = Some Eq.
Proof.
  destruct f as [[] | [] | | [] m e]; simpl; try reflexivity; try congruence; intros _;
    rewrite Z.compare_refl, Pos.compare_cont_refl; reflexivity.
Qed.

Lemma is_nan_spec (x : float) :
  PrimFloat.is_nan x = true -> Prim2SF x = S754_nan.
Proof.
  unfold PrimFloat.is_nan. rewrite FloatAxioms.eqb_spec. unfold SFeqb. intros H.
  destruct (Prim2SF x) as [s | s | | s m e] eqn:Hx; try reflexivity; exfalso.
  - rewrite (SFcompare_refl (S754_zero s)) in H by discriminate. discriminate.
  - rewrite (SFcompare_refl (S754_infinity s)) in H by discriminate. discriminate.
  - rewrite (SFcompare_refl (S754_finite s m e)) in H by discriminate. discriminate.
Qed.

Lemma nan_never_above (th r : float) :
  Prim2SF th = S754_nan \/ Prim2SF r = S754_nan -> (th <? r)%float = false.
Proof.
  rewrite FloatAxioms.ltb_spec. unfold SFltb.
  intros [-> | ->]; [reflexivity |].
  destruct (Prim2SF th) as [[] | [] | | [] m e]; reflexivity.
Qed.

Lemma sum_squares_nan (sum : float) (l : list float) :
  Prim2SF sum = S754_nan -> Prim2SF (AudioService.sum_squares sum l) = S754_nan.
Proof.
  revert sum. induction l as [| x l IH]; intros sum Hsum; simpl; [exact Hsum |].
  apply IH. rewrite add_spec, Hsum. reflexivity.
Qed.

Lemma sum_squares_nan_sample (sum x : float) (l1 l2 : list float) :
  Prim2SF x = S754_nan ->
  Prim2SF (AudioService.sum_squares sum (l1 ++ x :: l2)) = S754_nan.
Proof.
  intros Hx. revert sum. induction l1 as [| y l1 IH]; intros sum; simpl.
  - apply sum_squares_nan. rewrite add_spec, mul_spec, Hx. simpl.
    destruct (Prim2SF sum) as [[] | [] | | [] m e]; reflexivity.
  - apply IH.
Qed.

Lemma rms_nan (l : list float) :
  Prim2SF (AudioService.sum_squares 0 l) = S754_nan ->
  Prim2SF (AudioService.rms l) = S754_nan.
Proof.
  intros Hsum. unfold AudioService.rms.
  rewrite sqrt_spec, div_spec, Hsum. reflexivity.
Qed.

(** X19. Three inputs on which [detectVoiceActivity] is false whatever else is
    given: the empty buffer (its mean is 0/0), for every threshold, negative
    ones included; any buffer when the threshold is NaN; and any buffer that
    holds a NaN sample, for every threshold. No audio callback is made for
    them. *)
Theorem audio_gate_never_opens (a : AudioService.t) :
  AudioService.detectVoiceActivity a [] = false
  /\ (PrimFloat.is_nan (AudioService.vadThreshold a) = true ->
      forall audioData, AudioService.detectVoiceActivity a audioData = false)
  /\ (forall before x after,
         PrimFloat.is_nan x = true ->
         AudioService.detectVoiceActivity a (before ++ x :: after) = false /\
         forall now, AudioService.processAudioChunk a (Some (before ++ x :: after)) now = []).
Proof.
  unfold AudioService.detectVoiceActivity.
  split; [| split].
  - apply nan_never_above. right. reflexivity.
  - intros Hth audioData. apply nan_never_above. left. apply is_nan_spec, Hth.
  - intros before x after Hx.
    assert (Hno : (AudioService.vadThreshold a <? AudioService.rms (before ++ x :: after))%float
                  = false).
    { apply nan_never_above. right.
      apply rms_nan, sum_squares_nan_sample, is_nan_spec, Hx. }
    split; [exact Hno |].
    intros now. unfold AudioService.processAudioChunk, AudioService.detectVoiceActivity.
    rewrite Hno. destruct (AudioService.audioContext a); reflexivity.
Qed.

Lemma audio_gate_never_opens_witness :
  let a := AudioService.setAudioDataCallback (AudioService.initialize AudioService.constructor) in
  AudioService.detectVoiceActivity a ([0.5; 0.5] ++ PrimFloat.nan :: [0.5])%float = false.
Proof.
  intros a.
  apply (proj2 (proj2 (audio_gate_never_opens a)) [0.5; 0.5]%float PrimFloat.nan [0.5]%float).
  reflexivity.
Defined.

(** ** App: toggling twice *)

(** X20. Two clicks in a row bring the mute display back to where it was. With
    the socket open both requests are sent, first the one for the opposite of
    the displayed state and then its reverse; with the socket not open
    nothing is sent and the state is exactly as before. *)
Theorem toggleMute_twice (st : App.t) :
  let st2 := App.toggleMute (App.toggleMute st) in
  let request ty :=
    JSON.stringify [("type", JSON.Str ty); ("data", JSON.Object []);
                    ("session_id",
                     match App.currentSessionId st with
                     | Some s => JSON.Str s
                     | None => JSON.Null
                     end)]%string in
  App.isMuted st2 = App.isMuted st
  /\ (App.socket_open st = false -> st2 = st)
  /\ (App.socket_open st = true ->
      exists first second,
        request (if App.isMuted st then "unmute" else "mute")%string = Some first /\
        request (if App.isMuted st then "mute" else "unmute")%string = Some second /\
        App.outbox st2 = App.outbox st ++ [first; second]).
Proof.
  destruct st as [muted sid open_ out]. cbn zeta.
  unfold App.toggleMute, App.sendWebSocketMessage.
  split; [| split].
  - destruct muted, open_, sid; reflexivity.
  - cbn. intros ->. destruct muted; reflexivity.
  - cbn. intros ->.
    destruct muted, sid; cbn; eexists; eexists;
      (split; [reflexivity |]; split; [reflexivity |]);
      rewrite <- app_assoc; reflexivity.
Qed.

Lemma toggleMute_twice_witness :
  App.toggleMute (App.toggleMute (App.initial false)) = App.initial false
  /\ length (App.outbox (App.toggleMute (App.toggleMute (App.initial true)))) = 2%nat.
Proof.
  split.
  - apply (proj1 (proj2 (toggleMute_twice (App.initial false)))). reflexivity.
  - destruct (proj2 (proj2 (toggleMute_twice (App.initial true))) eq_refl)
      as (f1 & f2 & _ & _ & ->).
    reflexivity.
Defined.

(** ** App with the notification list: error reporting *)

Lemma general_message_shown (e : ErrorHandler.error) :
  In (ErrorHandler.getErrorMessage ErrorHandler.GENERAL (ErrorHandler.classify e) None)
    [ErrorHandler.general_unknown;
     default EmptyString (ErrorHandler.ErrorMessages ErrorHandler.GENERAL ErrorHandler.NETWORK);
     default EmptyString (ErrorHandler.ErrorMessages ErrorHandler.GENERAL ErrorHandler.TIMEOUT)].
Proof.
  pose proof (classify_range e) as Hr.
  destruct (ErrorHandler.classify e); simpl in Hr;
    try (exfalso; intuition discriminate); vm_compute; tauto.
Qed.

(** X21. Every error the component reports through [handleAppError] produces
    exactly one notification, of type 'error', at the end of the list, with
    one removal timer of 8000 ms; its text is one of the three General
    messages (unknown, network, timeout), whatever the error and the context
    were. *)
Theorem handleAppError_notifies (e : ErrorHandler.error) (ctx : option string)
    (err_date now date : Z) (n : AppNotifications.t) :
  let n' := AppSession.handleAppError e ctx err_date now date n in
  exists text,
    AppNotifications.notifications n'
    = AppNotifications.notifications n
        ++ [(AppNotifications.next_addr n,
             {| AppNotifications.id := now;
                AppNotifications.message := text;
                AppNotifications.type := "error";
                AppNotifications.timestamp := date |})]
    /\ AppNotifications.timers n' = AppNotifications.timers n ++ [(8000, now)]
    /\ In text
         [ErrorHandler.general_unknown;
          default EmptyString
            (ErrorHandler.ErrorMessages ErrorHandler.GENERAL ErrorHandler.NETWORK);
          default EmptyString
            (ErrorHandler.ErrorMessages ErrorHandler.GENERAL ErrorHandler.TIMEOUT)].
Proof.
  cbn zeta. unfold AppSession.handleAppError, ErrorHandler.handleError.
  cbn [ErrorHandler.userMessage default].
  eexists. split; [reflexivity |]. split; [reflexivity |].
  apply general_message_shown.
Qed.

Lemma run_notes_cons (e : AppSession.event) (es : list AppSession.event)
    (n : AppNotifications.t) :
  AppSession.run (e :: es) n = AppSession.run es (AppSession.step e n).
Proof. reflexivity. Qed.

Lemma step_notes (e : AppSession.event) (n : AppNotifications.t) :
  exists added,
    AppNotifications.notifications (AppSession.step e n)
    = AppNotifications.notifications n ++ added
    /\ length added = (if AppSession.is_error_notify e then 1 else 0)%nat.
Proof.
  destruct e as [msg ty duration now date | k | j]; cbn [AppSession.step].
  - unfold AppNotifications.addNotification. cbn [AppSession.is_error_notify].
    destruct (String.eqb (default "error"%string ty) "error"); cbn.
    + eexists. split; reflexivity.
    + exists []. rewrite app_nil_r. split; reflexivity.
  - exists []. rewrite app_nil_r. split; [| reflexivity].
    unfold AppNotifications.timer_fires.
    destruct (AppNotifications.timers n !! k) as [[d i] |]; [| reflexivity].
    unfold AppNotifications.removeNotification. cbn [AppNotifications.notifications].
    apply filter_keeps_objects.
  - exists []. rewrite app_nil_r. split; [| reflexivity].
    unfold AppNotifications.click.
    destruct (AppNotifications.notifications n !! j) as [[a x] |]; [| reflexivity].
    unfold AppNotifications.removeNotification. cbn [AppNotifications.notifications].
    apply filter_keeps_objects.
Qed.

(** X22. The notification list only ever grows. Through any sequence of
    [addNotification] calls, timers firing and clicks, the notifications there
    were stay where they were, and the list is longer by exactly the number of
    [addNotification] calls whose type is 'error' (or left out). *)
Theorem notifications_only_grow (es : list AppSession.event) (n : AppNotifications.t) :
  exists added,
    AppNotifications.notifications (AppSession.run es n)
    = AppNotifications.notifications n ++ added
    /\ length added = length (List.filter AppSession.is_error_notify es).
Proof.
  revert n. induction es as [| e es IH]; intros n.
  - exists []. rewrite app_nil_r. split; reflexivity.
  - rewrite run_notes_cons.
    destruct (step_notes e n) as (a1 & H1 & L1).
    destruct (IH (AppSession.step e n)) as (a2 & H2 & L2).
    exists (a1 ++ a2). rewrite H2, H1, <- app_assoc. split; [reflexivity |].
    rewrite length_app, L1, L2. simpl.
    destruct (AppSession.is_error_notify e); reflexivity.
Qed.



